(** * Settings modal (SettingsModalV2): effective view and pending-change buffers

    A shallow embedding of the state logic of the [SettingsModalV2] React
    component: the two pending-change buffers, the classification of
    app-scope edits into immediately applied (UI-only) and buffered (agent)
    ones, the effective value and source shown for a setting, and the
    save / cancel / reset / close handlers.

    JavaScript objects used as string-keyed records are finite maps
    ([gmap string value]) over their own data properties; a lookup that
    finds no own property goes on to the members every plain object inherits
    from [Object.prototype].  Requests sent through the react-query
    mutations are recorded, in order, in a log kept in the state; whether an
    awaited request succeeds is decided by the caller of the handler. *)

From Stdlib Require Import ZArith String List Bool.
From stdpp Require Import base option gmap strings list fin_maps.

Local Open Scope string_scope.

(** ** JavaScript values *)

Module JS.

(** The values a setting, a source tag or a missing property can take.
    [VInherited name] is the member [name] of [Object.prototype]: a built-in
    function, or for [__proto__] the prototype object itself. *)
Inductive value : Type :=
| VUndefined
| VNull
| VBool (b : bool)
| VNum (n : Z)
| VStr (s : string)
| VInherited (name : string).

#[global] Instance value_eq_dec : EqDecision value.
Proof. solve_decision. Defined.

(** ToBoolean. *)
Definition truthy (v : value) : bool :=
  match v with
  | VUndefined | VNull => false
  | VBool b => b
  | VNum n => negb (n =? 0)%Z
  | VStr s => negb (String.eqb s "")
  | VInherited _ => true
  end.

(** [a || b] *)
Definition or_else (a b : value) : value := if truthy a then a else b.

(** The property names a plain object inherits from [Object.prototype]. *)
Definition OBJECT_PROTOTYPE_KEYS : list string :=
  [ "constructor"; "__defineGetter__"; "__defineSetter__"; "hasOwnProperty";
    "__lookupGetter__"; "__lookupSetter__"; "isPrototypeOf";
    "propertyIsEnumerable"; "toString"; "valueOf"; "__proto__";
    "toLocaleString" ].

(** [obj[key]]: an own property, else an inherited member, else
    [undefined]. *)
Definition prop (obj : gmap string value) (key : string) : value :=
  match obj !! key with
  | Some v => v
  | None =>
      if bool_decide (key ∈ OBJECT_PROTOTYPE_KEYS)
      then VInherited key
      else VUndefined
  end.

(** [obj?.[key]] on an object that may itself be undefined. *)
Definition opt_prop (obj : option (gmap string value)) (key : string) : value :=
  match obj with
  | Some o => prop o key
  | None => VUndefined
  end.

(** [key in obj]: own or inherited. *)
Definition has (obj : gmap string value) (key : string) : bool :=
  bool_decide (is_Some (obj !! key))
  || bool_decide (key ∈ OBJECT_PROTOTYPE_KEYS).

(** [Object.keys(obj).length] *)
Definition keys_length (obj : gmap string value) : nat :=
  length (map_to_list obj).*1.

(** [{ ...a, ...b }]: the properties of [b] win. *)
Definition spread (a b : gmap string value) : gmap string value := b ∪ a.

End JS.
Import JS.

Abbreviation Settings := (gmap string value).

(** ** The component's state *)

(** The response of the effective-settings query: the merged values and,
    per key, the scope that supplied each. *)
Record EffectiveSettings : Type := mkEffective {
  settings : option Settings;
  sources : option Settings;
}.

(** Requests the component sends to the settings API. *)
Inductive StoreRequest : Type :=
| UpdateAppSettingsV2 (update : Settings)
| UpdateProjectSettingsV2 (project : string) (update : Settings)
| ClearProjectSettingV2 (project : string) (key : string)
| ResetAppSettingsV2
| ResetProjectSettingsV2 (project : string).

(** Props ([isOpen], [projectName]), the data of the three settings queries
    ([undefined] until fetched), the two [useState] buffers,
    the [isPending] flag of the two update mutations, and the requests
    issued so far (oldest first). *)
Record Modal : Type := mkModal {
  isOpen : bool;
  projectName : option string;
  appSettings : option Settings;
  projectSettings : option Settings;
  effectiveSettings : option EffectiveSettings;
  pendingAppChanges : Settings;
  pendingProjectChanges : Settings;
  updateApp_isPending : bool;
  updateProject_isPending : bool;
  requests : list StoreRequest;
}.

Definition set_isOpen (b : bool) (s : Modal) : Modal :=
  mkModal b (projectName s) (appSettings s) (projectSettings s)
    (effectiveSettings s) (pendingAppChanges s)
    (pendingProjectChanges s) (updateApp_isPending s)
    (updateProject_isPending s) (requests s).

Definition set_projectName (p : option string) (s : Modal) : Modal :=
  mkModal (isOpen s) p (appSettings s) (projectSettings s)
    (effectiveSettings s) (pendingAppChanges s)
    (pendingProjectChanges s) (updateApp_isPending s)
    (updateProject_isPending s) (requests s).

Definition set_effectiveSettings (e : option EffectiveSettings) (s : Modal) : Modal :=
  mkModal (isOpen s) (projectName s) (appSettings s) (projectSettings s) e
    (pendingAppChanges s)
    (pendingProjectChanges s) (updateApp_isPending s)
    (updateProject_isPending s) (requests s).

Definition set_appSettings (a : option Settings) (s : Modal) : Modal :=
  mkModal (isOpen s) (projectName s) a (projectSettings s)
    (effectiveSettings s) (pendingAppChanges s)
    (pendingProjectChanges s) (updateApp_isPending s)
    (updateProject_isPending s) (requests s).

Definition set_projectSettings (p : option Settings) (s : Modal) : Modal :=
  mkModal (isOpen s) (projectName s) (appSettings s) p
    (effectiveSettings s) (pendingAppChanges s)
    (pendingProjectChanges s) (updateApp_isPending s)
    (updateProject_isPending s) (requests s).

(** [setPendingAppChanges(next)] and [setPendingAppChanges(prev => ...)]. *)
Definition setPendingAppChanges (next : Settings -> Settings) (s : Modal) : Modal :=
  mkModal (isOpen s) (projectName s) (appSettings s) (projectSettings s)
    (effectiveSettings s)
    (next (pendingAppChanges s)) (pendingProjectChanges s)
    (updateApp_isPending s) (updateProject_isPending s) (requests s).

Definition setPendingProjectChanges (next : Settings -> Settings) (s : Modal) : Modal :=
  mkModal (isOpen s) (projectName s) (appSettings s) (projectSettings s)
    (effectiveSettings s)
    (pendingAppChanges s) (next (pendingProjectChanges s))
    (updateApp_isPending s) (updateProject_isPending s) (requests s).

Definition set_updateApp_isPending (b : bool) (s : Modal) : Modal :=
  mkModal (isOpen s) (projectName s) (appSettings s) (projectSettings s)
    (effectiveSettings s)
    (pendingAppChanges s) (pendingProjectChanges s)
    b (updateProject_isPending s) (requests s).

Definition set_updateProject_isPending (b : bool) (s : Modal) : Modal :=
  mkModal (isOpen s) (projectName s) (appSettings s) (projectSettings s)
    (effectiveSettings s)
    (pendingAppChanges s) (pendingProjectChanges s)
    (updateApp_isPending s) b (requests s).

(** Hand a request to the settings API. *)
Definition send (r : StoreRequest) (s : Modal) : Modal :=
  mkModal (isOpen s) (projectName s) (appSettings s) (projectSettings s)
    (effectiveSettings s)
    (pendingAppChanges s) (pendingProjectChanges s)
    (updateApp_isPending s) (updateProject_isPending s) (requests s ++ [r]).

(** The state of a freshly mounted modal. *)
Definition initial (open : bool) (project : option string) : Modal :=
  mkModal open project None None None ∅ ∅ false false [].

(** [!!projectName]: neither [null] nor the empty string. *)
Definition hasProject (s : Modal) : bool :=
  match projectName s with
  | Some name => negb (String.eqb name "")
  | None => false
  end.

(** ** Derived values of a render *)

Definition isSaving (s : Modal) : bool :=
  updateApp_isPending s || updateProject_isPending s.

(** Settings that auto-apply immediately (UI-only, don't affect agent). *)
Definition UI_ONLY_SETTINGS : gset string :=
  {[ "showDebugPanel"; "celebrateOnComplete"; "theme"; "darkMode";
     "debugPanelHeight"; "kanbanColumns" ]}.

Definition hasUnsavedAppChanges (s : Modal) : bool :=
  (0 <? keys_length (pendingAppChanges s))%nat.

Definition hasUnsavedProjectChanges (s : Modal) : bool :=
  (0 <? keys_length (pendingProjectChanges s))%nat.

Definition hasUnsavedChanges (s : Modal) : bool :=
  hasUnsavedAppChanges s || hasUnsavedProjectChanges s.

(** [effectiveSettings?.sources] and [effectiveSettings?.settings]. *)
Definition effective_sources (s : Modal) : option Settings :=
  e ← effectiveSettings s; sources e.

Definition effective_settings (s : Modal) : option Settings :=
  e ← effectiveSettings s; settings e.

(** Get source for a setting. *)
Definition getSource (s : Modal) (key : string) : value :=
  or_else (opt_prop (effective_sources s) key) (VStr "default").

(** Get effective value for a setting (including pending changes). *)
Definition getEffective (s : Modal) (key : string) (fallback : value) : value :=
  if has (pendingAppChanges s) key then
    prop (pendingAppChanges s) key
  else if has (pendingProjectChanges s) key then
    prop (pendingProjectChanges s) key
  else
    let value := opt_prop (effective_settings s) key in
    if bool_decide (value ≠ VUndefined) then value else fallback.


(** The Project tab renders its setting rows, and so calls [getEffective]
    and [getSource], once a project is selected and its settings are
    fetched: [!projectName ? ... : projectSettings && (...)]. *)
Definition projectRowsRendered (s : Modal) : bool :=
  hasProject s && bool_decide (is_Some (projectSettings s)).

(** ** Mutations *)

(** [updateApp.mutate(update)]: fire and forget.  The request goes out and
    the mutation stays pending until the API answers. *)
Definition updateApp_mutate (update : Settings) (s : Modal) : Modal :=
  set_updateApp_isPending true (send (UpdateAppSettingsV2 update) s).

(** [clearProjectSetting.mutate(key)] *)
Definition clearProjectSetting_mutate (project key : string) (s : Modal) : Modal :=
  send (ClearProjectSettingV2 project key) s.

(** An [async] body run to completion: the state it leaves behind and
    whether its promise was fulfilled or rejected. *)
Inductive Settled (A : Type) : Type :=
| Fulfilled (a : A)
| Rejected.
Arguments Fulfilled {A} a.
Arguments Rejected {A}.

Definition Async (A : Type) : Type := Modal -> Modal * Settled A.

Definition resolve {A} (a : A) : Async A := fun s => (s, Fulfilled a).

(** [await m; k]: a rejection of [m] leaves the rest of the body unrun. *)
Definition await {A B} (m : Async A) (k : A -> Async B) : Async B :=
  fun s =>
    match m s with
    | (s', Fulfilled a) => k a s'
    | (s', Rejected) => (s', Rejected)
    end.

(** A synchronous state update inside an [async] body. *)
Definition sync (f : Modal -> Modal) : Async unit := fun s => (f s, Fulfilled tt).

Notation "'await!' m ; k" := (await m (fun _ => k))
  (at level 100, m at next level, right associativity).

(** [await updateApp.mutateAsync(update)], the API answering [ok]. *)
Definition updateApp_mutateAsync (ok : bool) (update : Settings) : Async unit :=
  fun s =>
    let s' := set_updateApp_isPending false (send (UpdateAppSettingsV2 update) s) in
    (s', if ok then Fulfilled tt else Rejected).

(** [await updateProject.mutateAsync({ settings })], the API answering [ok]. *)
Definition updateProject_mutateAsync (ok : bool) (project : string)
    (update : Settings) : Async unit :=
  fun s =>
    let s' := set_updateProject_isPending false
                (send (UpdateProjectSettingsV2 project update) s) in
    (s', if ok then Fulfilled tt else Rejected).

(** ** Handlers *)

(** The loop of [handleAppChange] over [Object.entries(update)]: each entry
    goes to [uiChanges] (first component) or to [agentChanges] (second). *)
Definition classify (update : Settings) : Settings * Settings :=
  map_fold
    (fun key value acc =>
       if bool_decide (key ∈ UI_ONLY_SETTINGS)
       then (<[key := value]> acc.1, acc.2)
       else (acc.1, <[key := value]> acc.2))
    (∅, ∅) update.

(** Handle app setting changes - auto-apply UI settings, buffer agent
    settings. *)
Definition handleAppChange (update : Settings) (s : Modal) : Modal :=
  if isSaving s then s
  else
    let uiChanges := (classify update).1 in
    let agentChanges := (classify update).2 in
    let s1 :=
      if (0 <? keys_length uiChanges)%nat
      then updateApp_mutate uiChanges s
      else s in
    if (0 <? keys_length agentChanges)%nat
    then setPendingAppChanges (fun prev => spread prev agentChanges) s1
    else s1.

(** Handle project setting changes - buffer for explicit save. *)
Definition handleProjectChange (update : Settings) (s : Modal) : Modal :=
  if isSaving s || negb (hasProject s) then s
  else setPendingProjectChanges (fun prev => spread prev update) s.

(** Save all pending changes.  The values read from the render
    ([hasUnsavedAppChanges], [pendingProjectChanges], ...) are those of the
    state [s] the handler was created in; [app_ok] and [project_ok] are the
    API's answers to the two awaited writes. *)
Definition handleSave (app_ok project_ok : bool) (s : Modal) : Modal * Settled unit :=
  (await!
     (if hasUnsavedAppChanges s
      then await! updateApp_mutateAsync app_ok (pendingAppChanges s);
           sync (setPendingAppChanges (fun _ => ∅))
      else resolve tt);
   match projectName s with
   | Some name =>
       if hasUnsavedProjectChanges s && hasProject s
       then await! updateProject_mutateAsync project_ok name (pendingProjectChanges s);
            sync (setPendingProjectChanges (fun _ => ∅))
       else resolve tt
   | None => resolve tt
   end) s.

(** Discard pending changes. *)
Definition handleCancel (s : Modal) : Modal :=
  setPendingProjectChanges (fun _ => ∅) (setPendingAppChanges (fun _ => ∅) s).

(** Reset project setting to app default. *)
Definition handleResetProjectSetting (key : string) (s : Modal) : Modal :=
  match projectName s with
  | Some name =>
      if hasProject s
      then clearProjectSetting_mutate name key
             (setPendingProjectChanges (fun prev => delete key prev) s)
      else s
  | None => s
  end.

(** The effect on [isOpen]: reset pending changes when the modal closes. *)
Definition resetPendingEffect (s : Modal) : Modal :=
  if negb (isOpen s)
  then setPendingProjectChanges (fun _ => ∅) (setPendingAppChanges (fun _ => ∅) s)
  else s.

(** The parent renders the modal with [isOpen = open].  The effect depends
    on [isOpen] alone and runs only when that value changed. *)
Definition renderIsOpen (open : bool) (s : Modal) : Modal :=
  if Bool.eqb open (isOpen s) then s
  else resetPendingEffect (set_isOpen open s).

Definition closeModal (s : Modal) : Modal := renderIsOpen false s.

(** ** What a setting row shows *)

(** The two ways the specification lets a view refuse to answer. *)
Inductive ViewError : Type :=
| UnknownKeyError
| Unavailable.

Inductive View : Type :=
| Resolved (shown : value) (source : value)
| Refused (e : ViewError).

(** A row of the Project tab renders [getEffective(key, fallback)] next to
    the badge [getSource(key)].  Neither function throws or refuses. *)
Definition effectiveView (s : Modal) (key : string) (fallback : value) : View :=
  Resolved (getEffective s key fallback) (getSource s key).

(** ** Sessions *)

(** Everything that can happen to a mounted modal: the user's actions, the
    parent's prop changes, and the query and mutation layer settling. *)
Inductive Event : Type :=
| AppChange (update : Settings)
| ProjectChange (update : Settings)
| Save (app_ok project_ok : bool)
| Cancel
| ResetProjectSetting (key : string)
| RenderIsOpen (open : bool)
| RenderProject (project : option string)
| AppFetched (a : option Settings)
| ProjectFetched (p : option Settings)
| Refetched (e : option EffectiveSettings)
| UpdateAppSettled
| UpdateProjectSettled.

Definition step (s : Modal) (e : Event) : Modal :=
  match e with
  | AppChange update => handleAppChange update s
  | ProjectChange update => handleProjectChange update s
  | Save app_ok project_ok => (handleSave app_ok project_ok s).1
  | Cancel => handleCancel s
  | ResetProjectSetting key => handleResetProjectSetting key s
  | RenderIsOpen open => renderIsOpen open s
  | RenderProject project => set_projectName project s
  | AppFetched a => set_appSettings a s
  | ProjectFetched p => set_projectSettings p s
  | Refetched e => set_effectiveSettings e s
  | UpdateAppSettled => set_updateApp_isPending false s
  | UpdateProjectSettled => set_updateProject_isPending false s
  end.

Definition run (events : list Event) (s : Modal) : Modal :=
  foldl step s events.

(** States a session can be in. *)
Definition reachable (s : Modal) : Prop :=
  ∃ open project events, s = run events (initial open project).

(** An edit that is buffered whole: a project-scope edit, or an app-scope
    edit whose [uiChanges] come out empty. *)
Definition buffered_edit (e : Event) : bool :=
  match e with
  | AppChange update => negb (0 <? keys_length (classify update).1)%nat
  | ProjectChange _ => true
  | _ => false
  end.

(** Modelled from the spec: the closed key schema.  The type declarations
    of the settings objects ([AppSettingsV2Update], [ProjectSettingsV2Update])
    are not among the sources; the keys listed are those the component reads
    or edits, together with the members of [UI_ONLY_SETTINGS]. *)
Definition SETTING_KEYS : gset string :=
  {[ "coderModel"; "testerModel"; "initializerModel"; "yoloMode";
     "testingAgentRatio"; "autoResume"; "pauseOnError"; "autoCommit";
     "createPullRequests" ]} ∪ UI_ONLY_SETTINGS.

(** Two states that differ at most in their pending buffers. *)
Definition same_outside_buffers (s s' : Modal) : Prop :=
  isOpen s' = isOpen s ∧ projectName s' = projectName s
  ∧ appSettings s' = appSettings s ∧ projectSettings s' = projectSettings s
  ∧ effectiveSettings s' = effectiveSettings s
  ∧ updateApp_isPending s' = updateApp_isPending s
  ∧ updateProject_isPending s' = updateProject_isPending s
  ∧ requests s' = requests s.

Ltac unfold_handlers :=
  unfold handleCancel, handleProjectChange, handleAppChange,
    handleResetProjectSetting, renderIsOpen, closeModal, resetPendingEffect,
    clearProjectSetting_mutate, updateApp_mutate,
    setPendingAppChanges, setPendingProjectChanges,
    set_updateApp_isPending, set_updateProject_isPending, send,
    set_isOpen, set_projectName, set_appSettings, set_projectSettings,
    set_effectiveSettings in *.

Ltac unfold_save :=
  unfold handleSave, await, sync, resolve,
    updateApp_mutateAsync, updateProject_mutateAsync in *.

(** A buffer that holds no UI-only key. *)
Definition agent_keys_only (m : Settings) : Prop :=
  ∀ key, is_Some (m !! key) → key ∉ UI_ONLY_SETTINGS.

(** ** A session used in the examples

    The project "demo" is open; the server reports [yoloMode = false],
    supplied by the app scope. *)

Definition yolo_snapshot : EffectiveSettings :=
  mkEffective (Some {[ "yoloMode" := VBool false ]})
              (Some {[ "yoloMode" := VStr "app" ]}).

(** The modal just opened on "demo": the project's settings (no override)
    have arrived, the effective settings have not. *)
Definition demo_opening : Modal :=
  run [ProjectFetched (Some {[ "yoloMode" := VNull ]})]
    (initial true (Some "demo")).

Definition demo_loaded : Modal :=
  run [Refetched (Some yolo_snapshot)] demo_opening.

(** The user switches YOLO mode on in the Project tab. *)
Definition demo_project_edit : Modal :=
  run [ProjectChange {[ "yoloMode" := VBool true ]}] demo_loaded.

(** The user switches YOLO mode off in the App tab, then on in the Project
    tab. *)
Definition demo_both_edits : Modal :=
  run [AppChange {[ "yoloMode" := VBool false ]};
       ProjectChange {[ "yoloMode" := VBool true ]}] demo_loaded.

(** The user has toggled the debug panel in the App tab; that write is
    still pending. *)
Definition demo_saving : Modal :=
  run [AppChange {[ "showDebugPanel" := VBool true ]}] demo_loaded.

(** * Server health: the [useServerHealth] hook and [ServerStatusBanner] *)

Module Health.

Definition MAX_FAILURES_BEFORE_WARNING : Z := 3.

(** [n + 1] on a failure count.  The count is a JavaScript number that
    starts at 0 and only ever grows by one: the sum is exact below 2^53 and
    rounds back to 2^53 there. *)
Definition incr (n : Z) : Z := if (n <? 2 ^ 53)%Z then (n + 1)%Z else n.

(** [lastCheck] is a [Date | null], kept as milliseconds since the epoch. *)
Record ServerHealthState : Type := mkHealth {
  isHealthy : bool;
  lastCheck : option Z;
  consecutiveFailures : Z;
  isRecovering : bool;
}.

Definition initial : ServerHealthState := mkHealth true None 0 false.

(** How the [fetch] of one health check ends: a response, whose [ok] flag
    says whether the status was 2xx, or a rejection (network error, or the
    five-second timeout). *)
Inductive FetchOutcome : Type :=
| Responded (ok : bool)
| Threw.

(** The state update of [checkHealth], applied to the previous state once
    the fetch has ended at time [now]. *)
Definition checkHealth (outcome : FetchOutcome) (now : Z)
    (prev : ServerHealthState) : ServerHealthState :=
  match outcome with
  | Responded true =>
      mkHealth true (Some now) 0
        (MAX_FAILURES_BEFORE_WARNING <=? consecutiveFailures prev)%Z
  | _ =>
      mkHealth (consecutiveFailures prev <? MAX_FAILURES_BEFORE_WARNING - 1)%Z
        (Some now) (incr (consecutiveFailures prev)) false
  end.

(** The [showWarning] field of the hook's result. *)
Definition showWarning (st : ServerHealthState) : bool :=
  (MAX_FAILURES_BEFORE_WARNING <=? consecutiveFailures st)%Z.

(** The checks of a session, in the order their fetches ended. *)
Definition run (checks : list (FetchOutcome * Z)) (st : ServerHealthState)
    : ServerHealthState :=
  foldl (fun st c => checkHealth c.1 c.2 st) st checks.

Definition failed (c : FetchOutcome * Z) : bool :=
  match c.1 with
  | Responded true => false
  | _ => true
  end.

(** What [ServerStatusBanner] renders: nothing, the green recovery message,
    or the warning, with the number of failed attempts once it exceeds 3. *)
Inductive Banner : Type :=
| NoBanner
| RecoveredBanner
| WarningBanner (attempts : option Z).

Definition ServerStatusBanner (st : ServerHealthState) : Banner :=
  if isRecovering st then RecoveredBanner
  else if negb (showWarning st) then NoBanner
  else WarningBanner
         (if (3 <? consecutiveFailures st)%Z
          then Some (consecutiveFailures st) else None).

(** The state invariant of the hook. *)
Definition consistent (st : ServerHealthState) : Prop :=
  (0 ≤ consecutiveFailures st ≤ 2 ^ 53)%Z
  ∧ isHealthy st = negb (showWarning st)
  ∧ (isRecovering st = true → consecutiveFailures st = 0%Z).

End Health.

(** * Preferences kept in the browser's local storage *)

Module Storage.

(** [window.localStorage]: the stored items, and whether reading and writing
    are permitted.  A forbidden access throws (storage disabled, quota
    exceeded). *)
Record LocalStorage : Type := mkStorage {
  items : gmap string string;
  readable : bool;
  writable : bool;
}.

(** [localStorage.getItem(key)]: [None] when the call throws, [Some None]
    for [null]. *)
Definition getItem (ls : LocalStorage) (key : string) : option (option string) :=
  if readable ls then Some (items ls !! key) else None.

(** [localStorage.setItem(key, value)]: [None] when the call throws. *)
Definition setItem (ls : LocalStorage) (key value : string) : option LocalStorage :=
  if writable ls
  then Some (mkStorage (<[key := value]> (items ls)) (readable ls) (writable ls))
  else None.

End Storage.

(** ** The activity sidebar ([ActivitySidebar]) *)

Module Sidebar.
Import Storage.

Definition SIDEBAR_COLLAPSED_KEY : string := "autocoder-activity-sidebar-collapsed".

(** [String(b)] *)
Definition String_of_bool (b : bool) : string := if b then "true" else "false".

(** The initial value of [isCollapsed], read once when the sidebar mounts. *)
Definition initialCollapsed (ls : LocalStorage) : bool :=
  match getItem ls SIDEBAR_COLLAPSED_KEY with
  | Some stored => bool_decide (stored = Some "true")
  | None => false
  end.

(** [toggleCollapsed]: the new [isCollapsed] and the storage afterwards. *)
Definition toggleCollapsed (isCollapsed : bool) (ls : LocalStorage)
    : bool * LocalStorage :=
  let newValue := negb isCollapsed in
  (newValue,
   match setItem ls SIDEBAR_COLLAPSED_KEY (String_of_bool newValue) with
   | Some ls' => ls'
   | None => ls
   end).

End Sidebar.

(** ** The Kanban column count of the settings modal *)

Module Kanban.
Import Storage.

(** The type [3 | 4]. *)
Inductive Columns : Type := Three | Four.

Definition KANBAN_COLUMNS_KEY : string := "autocoder-kanban-columns".

(** [String(cols)] *)
Definition String_of_columns (cols : Columns) : string :=
  match cols with Three => "3" | Four => "4" end.

(** The [StorageEvent] dispatched on [window] to notify the board. *)
Record StorageEvent : Type := mkStorageEvent {
  key : string;
  newValue : string;
}.

(** The component's [kanbanColumns], the storage, and the events dispatched
    so far (oldest first). *)
Record Env : Type := mkEnv {
  kanbanColumns : Columns;
  storage : LocalStorage;
  dispatched : list StorageEvent;
}.

(** The initial value of [kanbanColumns]. *)
Definition initialColumns (ls : LocalStorage) : Columns :=
  match getItem ls KANBAN_COLUMNS_KEY with
  | Some stored => if bool_decide (stored = Some "4") then Four else Three
  | None => Three
  end.

(** [handleKanbanColumnsChange]: the state is set first; the write and the
    notification share one [try], so a failed write sends no notification. *)
Definition handleKanbanColumnsChange (cols : Columns) (env : Env) : Env :=
  match setItem (storage env) KANBAN_COLUMNS_KEY (String_of_columns cols) with
  | Some ls' =>
      mkEnv cols ls'
        (dispatched env
         ++ [mkStorageEvent KANBAN_COLUMNS_KEY (String_of_columns cols)])
  | None => mkEnv cols (storage env) (dispatched env)
  end.

End Kanban.

(** * The progress dashboard header ([ProgressDashboard]) *)

Module Dashboard.

Inductive HeaderBadge : Type := Yolo | Paused | Stopping | Live | Offline.

#[global] Instance HeaderBadge_eq_dec : EqDecision HeaderBadge.
Proof. solve_decision. Defined.

(** The badges of the card header, left to right.  The three optional props
    default to [false] when omitted. *)
Definition headerBadges (isConnected : bool)
    (yoloMode pickupPaused gracefulShutdown : option bool) : list HeaderBadge :=
  let yoloMode := default false yoloMode in
  let pickupPaused := default false pickupPaused in
  let gracefulShutdown := default false gracefulShutdown in
  (if yoloMode then [Yolo] else [])
  ++ (if pickupPaused && negb gracefulShutdown then [Paused] else [])
  ++ (if gracefulShutdown then [Stopping] else [])
  ++ [if isConnected then Live else Offline].

End Dashboard.

(** * Theme configuration *)

Module Themes.

Record Columns : Type := mkColumns {
  pending : string;
  inProgress : string;
  testing : string;
  complete : string;
}.

Record Colors : Type := mkColors {
  primary : string;
  secondary : string;
  accent : string;
  success : string;
  warning : string;
  commandColor : string;
  scienceColor : string;
  engineeringColor : string;
  cardBg : option string;
  headerBg : option string;
}.

(** The optional tables are objects keyed by state name, and by agent name
    then state name; an omitted field is [None]. *)
Record Theme : Type := mkTheme {
  id : string;
  name : string;
  description : string;
  orchestratorName : string;
  agentNames : list string;
  columns : Columns;
  colors : Colors;
  completionMessage : option string;
  boardTitle : option string;
  orchestratorMessages : option (gmap string string);
  agentCatchphrases : option (gmap string (gmap string string));
}.

(** Default theme - the original Autocoder mascots. *)
Definition defaultTheme : Theme := {|
  id := "default";
  name := "Default";
  description := "The original Autocoder mascots";
  orchestratorName := "Orchestrator";
  agentNames :=
    [ "Spark"; "Fizz"; "Octo"; "Hoot"; "Buzz";
      "Pixel"; "Byte"; "Nova"; "Chip"; "Bolt";
      "Dash"; "Zap"; "Gizmo"; "Turbo"; "Blip";
      "Neon"; "Widget"; "Zippy"; "Quirk"; "Flux" ];
  columns := mkColumns "Pending" "In Progress" "Testing" "Complete";
  colors :=
    mkColors "hsl(187 100% 42%)" "hsl(210 40% 96%)" "hsl(187 100% 42%)"
      "hsl(142 76% 36%)" "hsl(38 92% 50%)" "hsl(187 100% 42%)"
      "hsl(210 100% 50%)" "hsl(0 84% 60%)" None None;
  completionMessage := Some "Feature complete!";
  boardTitle := None;
  orchestratorMessages := None;
  agentCatchphrases := None;
|}.

(** The seven catchphrases of one character, in the order idle, thinking,
    working, testing, success, error, struggling. *)
Definition phrases (idle thinking working testing success error struggling : string)
    : gmap string string :=
  list_to_map
    [ ("idle", idle); ("thinking", thinking); ("working", working);
      ("testing", testing); ("success", success); ("error", error);
      ("struggling", struggling) ].

(** Star Trek: The Original Series theme. *)
Definition starfleetTOSTheme : Theme := {|
  id := "starfleet_tos";
  name := "Starfleet TOS";
  description := "Star Trek: The Original Series - USS Enterprise crew";
  orchestratorName := "Captain Kirk";
  agentNames :=
    [ "Spock"; "McCoy"; "Scotty"; "Sulu"; "Uhura"; "Chekov";
      "Chapel"; "Riley"; "Kyle"; "Leslie"; "DeSalle"; "Rand" ];
  columns := mkColumns "Starbase" "Away Mission" "Scanning" "Captain's Log";
  colors :=
    mkColors "hsl(45 100% 50%)" "hsl(220 30% 20%)" "hsl(200 100% 50%)"
      "hsl(142 76% 36%)" "hsl(0 84% 50%)" "hsl(45 100% 50%)"
      "hsl(200 100% 50%)" "hsl(0 72% 51%)" None None;
  completionMessage := Some "Captain's Log: Mission accomplished!";
  boardTitle := Some "USS Enterprise Mission Control";
  orchestratorMessages := Some (list_to_map
    [ ("idle", "Standing by on the bridge...");
      ("initializing", "Preparing the away team...");
      ("scheduling", "Plotting our course...");
      ("spawning", "Deploying Starfleet officers...");
      ("monitoring", "Monitoring away team status...");
      ("complete", "Mission accomplished, Mr. Spock!") ]);
  agentCatchphrases := Some (list_to_map
    [ ("Spock", phrases
         "Awaiting orders, Captain."
         "Fascinating..."
         "Logic dictates this approach."
         "Running sensor analysis..."
         "Live long and prosper."
         "Highly illogical."
         "The odds are... not in our favor.");
      ("McCoy", phrases
         "Standing by in sickbay."
         "I'm a doctor, not a mind reader!"
         "Dammit Jim, I'm a doctor, not a coder!"
         "Running diagnostics..."
         "He's alive, Jim!"
         "He's dead, Jim."
         "I can't change the laws of physics!");
      ("Scotty", phrases
         "Engineering standing by."
         "I'm workin' on it, Captain!"
         "I'm givin' her all she's got!"
         "Running engine diagnostics..."
         "She handled it beautifully, sir!"
         "She cannae take much more o' this!"
         "I need more power, Captain!");
      ("Sulu", phrases
         "Helm ready, Captain."
         "Calculating trajectory..."
         "Setting course, sir."
         "Running navigation checks..."
         "On course, Captain."
         "We have a navigation problem."
         "Fighting for control!");
      ("Uhura", phrases
         "Hailing frequencies open."
         "Analyzing signal patterns..."
         "Establishing communication link..."
         "Running comm diagnostics..."
         "Message transmitted, Captain."
         "I cannot establish contact."
         "Heavy interference, Captain!");
      ("Chekov", phrases
         "Ready at navigation, Keptin."
         "Calculating wectors..."
         "This was inwented in Russia!"
         "Checking coordinates..."
         "Course plotted, Keptin!"
         "Keptin, we have a problem!"
         "The instruments are going crazy!");
      ("Chapel", phrases
         "Nurse Chapel standing by."
         "Analyzing medical data..."
         "Preparing treatment protocol..."
         "Running medical scans..."
         "Vital signs are stable."
         "We need Dr. McCoy!"
         "The patient needs help!");
      ("Captain Kirk", phrases
         "Kirk here."
         "Considering our options..."
         "Risk is our business!"
         "Evaluating the situation..."
         "Well done, that's an order."
         "We need another option."
         "I don't believe in no-win scenarios!") ]);
|}.

(** All available themes. *)
Definition themes : gmap string Theme :=
  list_to_map [ ("default", defaultTheme); ("starfleet_tos", starfleetTOSTheme) ].

(** The property names every object literal inherits from
    [Object.prototype]; [themes[themeId]] finds them too. *)
Definition OBJECT_PROTOTYPE_NAMES : list string :=
  [ "constructor"; "__defineGetter__"; "__defineSetter__"; "hasOwnProperty";
    "__lookupGetter__"; "__lookupSetter__"; "isPrototypeOf";
    "propertyIsEnumerable"; "toString"; "valueOf"; "__proto__";
    "toLocaleString" ].

(** What [getTheme] hands back: a theme, or, for an inherited property
    name, that (truthy) inherited member, which is no theme. *)
Inductive Found : Type :=
| FoundTheme (theme : Theme)
| Inherited (property : string).

(** Helper to get theme by ID: [themes[themeId] || defaultTheme]. *)
Definition getTheme (themeId : string) : Found :=
  match themes !! themeId with
  | Some theme => FoundTheme theme
  | None =>
      if bool_decide (themeId ∈ OBJECT_PROTOTYPE_NAMES)
      then Inherited themeId
      else FoundTheme defaultTheme
  end.

(** Get agent name for a given index within a theme:
    [theme.agentNames[index % theme.agentNames.length]], for an integer
    [index].  [%] takes the sign of [index]; a remainder that is negative,
    or [NaN] for an empty list, finds no element. *)
Definition getAgentName (theme : Theme) (index : Z) : option string :=
  let len := Z.of_nat (length (agentNames theme)) in
  if (len =? 0)%Z then None
  else
    let i := Z.rem index len in
    if (i <? 0)%Z then None else agentNames theme !! Z.to_nat i.

Inductive ColumnStatus : Type :=
| ColPending | ColInProgress | ColTesting | ColComplete.

(** Get column title for a status. *)
Definition getColumnTitle (theme : Theme) (status : ColumnStatus) : string :=
  match status with
  | ColPending => pending (columns theme)
  | ColInProgress => inProgress (columns theme)
  | ColTesting => testing (columns theme)
  | ColComplete => complete (columns theme)
  end.

Inductive OrchestratorState : Type :=
| OrchIdle | OrchInitializing | OrchScheduling | OrchSpawning
| OrchMonitoring | OrchComplete.

Definition orchestratorKey (state : OrchestratorState) : string :=
  match state with
  | OrchIdle => "idle"
  | OrchInitializing => "initializing"
  | OrchScheduling => "scheduling"
  | OrchSpawning => "spawning"
  | OrchMonitoring => "monitoring"
  | OrchComplete => "complete"
  end.

(** Get orchestrator message for a state. *)
Definition getOrchestratorMessage (theme : Theme) (state : OrchestratorState)
    : option string :=
  messages ← orchestratorMessages theme; messages !! orchestratorKey state.

Inductive AgentState : Type :=
| AgentIdle | AgentThinking | AgentWorking | AgentTesting
| AgentSuccess | AgentError | AgentStruggling.

Definition agentKey (state : AgentState) : string :=
  match state with
  | AgentIdle => "idle"
  | AgentThinking => "thinking"
  | AgentWorking => "working"
  | AgentTesting => "testing"
  | AgentSuccess => "success"
  | AgentError => "error"
  | AgentStruggling => "struggling"
  end.

(** Get agent catchphrase for a name and state.  An inherited property name
    used as agent name finds a member without any of the state keys, hence
    [undefined] as for an unknown name. *)
Definition getAgentCatchphrase (theme : Theme) (agentName : string)
    (state : AgentState) : option string :=
  table ← agentCatchphrases theme;
  entry ← table !! agentName;
  entry !! agentKey state.

End Themes.

(** * Properties *)

(** ** JavaScript objects as finite maps *)

Section object_facts.
Implicit Types (m update : Settings) (key : string) (v : value).

Lemma keys_length_size m : keys_length m = size m.
Proof. unfold keys_length. by rewrite length_fmap, length_map_to_list. Qed.

Lemma no_keys_empty m : (0 <? keys_length m)%nat = false ↔ m = ∅.
Proof.
  rewrite keys_length_size, Nat.ltb_ge, <- map_size_empty_iff. lia.
Qed.

Lemma some_keys_nonempty m : (0 <? keys_length m)%nat = true ↔ m ≠ ∅.
Proof.
  rewrite keys_length_size, Nat.ltb_lt, <- map_size_non_empty_iff. lia.
Qed.

Lemma has_Some m key v : m !! key = Some v → has m key = true.
Proof.
  intros Hk. unfold has. apply orb_true_iff. left.
  apply bool_decide_eq_true. by exists v.
Qed.

(** [key in obj] fails exactly for a name that is neither an own property
    nor inherited. *)
Lemma has_false m key :
  has m key = false ↔ m !! key = None ∧ key ∉ OBJECT_PROTOTYPE_KEYS.
Proof.
  unfold has. rewrite orb_false_iff, !bool_decide_eq_false.
  rewrite <- eq_None_not_Some. done.
Qed.

Lemma has_empty key :
  has ∅ key = bool_decide (key ∈ OBJECT_PROTOTYPE_KEYS).
Proof. unfold has. by rewrite lookup_empty. Qed.

Lemma prop_own_missing m key :
  m !! key = None → key ∉ OBJECT_PROTOTYPE_KEYS → prop m key = VUndefined.
Proof. intros Hk Hown. unfold prop. by rewrite Hk, bool_decide_eq_false_2. Qed.

Lemma prop_inherited m key :
  m !! key = None → key ∈ OBJECT_PROTOTYPE_KEYS → prop m key = VInherited key.
Proof. intros Hk Hin. unfold prop. by rewrite Hk, bool_decide_eq_true_2. Qed.

(** On a name that is not inherited, [obj?.[key]] reads own properties
    only. *)
Lemma opt_prop_own (o : option Settings) key :
  key ∉ OBJECT_PROTOTYPE_KEYS →
  opt_prop o key = default VUndefined (o ≫= (.!! key)).
Proof.
  intros Hown. destruct o as [m|]; [|done]. simpl. unfold prop.
  destruct (m !! key); [done|]. by rewrite bool_decide_eq_false_2.
Qed.

Lemma prop_Some m key v : m !! key = Some v → prop m key = v.
Proof. intros Hk. unfold prop. by rewrite Hk. Qed.

Lemma spread_lookup_new m update key v :
  update !! key = Some v → spread m update !! key = Some v.
Proof. intros Hk. unfold spread. by apply lookup_union_Some_l. Qed.

Lemma spread_lookup_old m update key :
  update !! key = None → spread m update !! key = m !! key.
Proof. intros Hk. unfold spread. by apply lookup_union_r. Qed.

(** The loop sends an entry to [uiChanges] exactly when its key is
    UI-only, and to [agentChanges] otherwise. *)
Lemma classify_lookup update key :
  (classify update).1 !! key
    = (if decide (key ∈ UI_ONLY_SETTINGS) then update !! key else None)
  ∧ (classify update).2 !! key
    = (if decide (key ∈ UI_ONLY_SETTINGS) then None else update !! key).
Proof.
  unfold classify.
  apply (map_fold_weak_ind (fun acc (u : Settings) =>
    acc.1 !! key = (if decide (key ∈ UI_ONLY_SETTINGS) then u !! key else None)
    ∧ acc.2 !! key = (if decide (key ∈ UI_ONLY_SETTINGS) then None else u !! key))).
  - simpl. rewrite !lookup_empty. by destruct (decide _).
  - intros i x m [ui agent] Hi [IH1 IH2]. simpl in *.
    destruct (decide (i = key)) as [->|Hne].
    + rewrite lookup_insert_eq.
      case_bool_decide as Hui; simpl.
      * destruct (decide (key ∈ UI_ONLY_SETTINGS)); [|done].
        by rewrite lookup_insert_eq.
      * destruct (decide (key ∈ UI_ONLY_SETTINGS)); [done|].
        by rewrite lookup_insert_eq.
    + rewrite (lookup_insert_ne m) by done.
      case_bool_decide; simpl; by rewrite ?lookup_insert_ne.
Qed.

Lemma classify_ui_lookup update key v :
  update !! key = Some v → key ∈ UI_ONLY_SETTINGS →
  (classify update).1 !! key = Some v.
Proof.
  intros Hk Hui. rewrite (proj1 (classify_lookup update key)).
  by rewrite decide_True.
Qed.

Lemma classify_agent_keys update key :
  is_Some ((classify update).2 !! key) → key ∉ UI_ONLY_SETTINGS.
Proof.
  rewrite (proj2 (classify_lookup update key)).
  destruct (decide _); [by intros [? ?] | done].
Qed.

(** An update made of UI-only keys only is sent whole and buffers nothing. *)
Lemma classify_all_ui update :
  (∀ key, is_Some (update !! key) → key ∈ UI_ONLY_SETTINGS) →
  classify update = (update, ∅).
Proof.
  intros Hall.
  rewrite (surjective_pairing (classify update)). f_equal; apply map_eq; intros k.
  - rewrite (proj1 (classify_lookup update k)).
    destruct (decide _) as [|Hn]; [done|].
    destruct (update !! k) eqn:Hk; [|done].
    exfalso. apply Hn, Hall. by rewrite Hk.
  - rewrite (proj2 (classify_lookup update k)), lookup_empty.
    destruct (decide _) as [|Hn]; [done|].
    destruct (update !! k) eqn:Hk; [|done].
    exfalso. apply Hn, Hall. by rewrite Hk.
Qed.

(** An update without UI-only keys is buffered whole and sends nothing. *)
Lemma classify_all_agent update :
  (∀ key, is_Some (update !! key) → key ∉ UI_ONLY_SETTINGS) →
  classify update = (∅, update).
Proof.
  intros Hall.
  rewrite (surjective_pairing (classify update)). f_equal; apply map_eq; intros k.
  - rewrite (proj1 (classify_lookup update k)), lookup_empty.
    destruct (decide _) as [Hui|]; [|done].
    destruct (update !! k) eqn:Hk; [|done].
    exfalso. eapply Hall; [|exact Hui]. by rewrite Hk.
  - rewrite (proj2 (classify_lookup update k)).
    destruct (decide _) as [Hui|]; [|done].
    destruct (update !! k) eqn:Hk; [|done].
    exfalso. eapply Hall; [|exact Hui]. by rewrite Hk.
Qed.

End object_facts.

(** ** What the handlers touch *)

Section handler_facts.
Implicit Types (s : Modal) (update : Settings) (key : string) (v : value).

Lemma same_outside_buffers_refl s : same_outside_buffers s s.
Proof. by repeat split. Qed.

Lemma same_outside_buffers_trans s1 s2 s3 :
  same_outside_buffers s1 s2 → same_outside_buffers s2 s3 →
  same_outside_buffers s1 s3.
Proof.
  unfold same_outside_buffers. intros (?&?&?&?&?&?&?&?) (?&?&?&?&?&?&?&?).
  repeat split; congruence.
Qed.

Lemma cancel_same_outside_buffers s s' :
  same_outside_buffers s s' → handleCancel s' = handleCancel s.
Proof.
  intros (?&?&?&?&?&?&?&?). unfold_handlers. simpl. congruence.
Qed.

Lemma cancel_empty_buffers s :
  pendingAppChanges s = ∅ → pendingProjectChanges s = ∅ → handleCancel s = s.
Proof. destruct s; simpl. intros -> ->. reflexivity. Qed.

Lemma handleProjectChange_same_outside s update :
  same_outside_buffers s (handleProjectChange update s).
Proof.
  unfold_handlers. destruct (isSaving s || negb (hasProject s));
    by repeat split.
Qed.

(** A project edit that is accepted merges the update over the buffer. *)
Lemma handleProjectChange_accepted s update :
  isSaving s = false → hasProject s = true →
  pendingProjectChanges (handleProjectChange update s)
    = spread (pendingProjectChanges s) update
  ∧ pendingAppChanges (handleProjectChange update s) = pendingAppChanges s.
Proof. intros Hs Hp. unfold_handlers. by rewrite Hs, Hp. Qed.

Lemma handleProjectChange_app_buffer s update :
  pendingAppChanges (handleProjectChange update s) = pendingAppChanges s.
Proof.
  unfold_handlers. by destruct (isSaving s || negb (hasProject s)).
Qed.

(** An app edit without UI-only keys sends nothing. *)
Lemma handleAppChange_agent_same_outside s update :
  (∀ key, is_Some (update !! key) → key ∉ UI_ONLY_SETTINGS) →
  same_outside_buffers s (handleAppChange update s).
Proof.
  intros Hall. unfold handleAppChange.
  rewrite (classify_all_agent update Hall). simpl.
  destruct (isSaving s); [apply same_outside_buffers_refl|].
  replace (0 <? keys_length (∅ : Settings))%nat with false
    by (symmetry; by apply no_keys_empty).
  destruct (0 <? keys_length update)%nat; by repeat split.
Qed.

(** The app buffer after an app edit: untouched, or the agent part of the
    update merged over it. *)
Lemma handleAppChange_app_buffer s update :
  pendingAppChanges (handleAppChange update s) = pendingAppChanges s
  ∨ pendingAppChanges (handleAppChange update s)
    = spread (pendingAppChanges s) (classify update).2.
Proof.
  unfold_handlers. destruct (isSaving s); [by left|].
  destruct (0 <? keys_length (classify update).1)%nat,
    (0 <? keys_length (classify update).2)%nat; simpl; auto.
Qed.

Lemma handleAppChange_project_buffer s update :
  pendingProjectChanges (handleAppChange update s) = pendingProjectChanges s.
Proof.
  unfold_handlers. destruct (isSaving s); [done|].
  by destruct (0 <? keys_length (classify update).1)%nat,
    (0 <? keys_length (classify update).2)%nat.
Qed.

(** Save leaves each buffer as it was or empties it. *)
Lemma handleSave_app_buffer s app_ok project_ok :
  pendingAppChanges (handleSave app_ok project_ok s).1 = pendingAppChanges s
  ∨ pendingAppChanges (handleSave app_ok project_ok s).1 = ∅.
Proof.
  unfold_save. unfold_handlers.
  destruct (hasUnsavedAppChanges s), app_ok, (projectName s),
    (hasUnsavedProjectChanges s && hasProject s), project_ok; simpl; auto.
Qed.

(** A failed app write ends the save at once: nothing is cleared and the
    project write is never attempted. *)
Lemma handleSave_app_write_fails s project_ok :
  hasUnsavedAppChanges s = true →
  let r := handleSave false project_ok s in
  r.2 = Rejected
  ∧ pendingAppChanges r.1 = pendingAppChanges s
  ∧ pendingProjectChanges r.1 = pendingProjectChanges s
  ∧ requests r.1
    = (requests s ++ [UpdateAppSettingsV2 (pendingAppChanges s)])%list.
Proof. intros Hu. unfold_save. rewrite Hu. simpl. by repeat split. Qed.

(** The value shown once a key is in the app buffer. *)
Lemma getEffective_app_pending s key v fallback :
  pendingAppChanges s !! key = Some v → getEffective s key fallback = v.
Proof.
  intros Hk. unfold getEffective.
  by rewrite (has_Some _ _ _ Hk), (prop_Some _ _ _ Hk).
Qed.

(** The value shown for a key that [in] does not find in the app buffer and
    that the project buffer holds. *)
Lemma getEffective_project_pending s key v fallback :
  has (pendingAppChanges s) key = false →
  pendingProjectChanges s !! key = Some v →
  getEffective s key fallback = v.
Proof.
  intros Ha Hk. unfold getEffective.
  by rewrite Ha, (has_Some _ _ _ Hk), (prop_Some _ _ _ Hk).
Qed.

(** The value shown for a key that [in] finds in neither buffer: the
    snapshot's value, or the fallback if the snapshot has none. *)
Lemma getEffective_not_pending s key fallback :
  has (pendingAppChanges s) key = false →
  has (pendingProjectChanges s) key = false →
  getEffective s key fallback
    = (let value := opt_prop (effective_settings s) key in
       if bool_decide (value ≠ VUndefined) then value else fallback).
Proof. intros Ha Hp. unfold getEffective. by rewrite Ha, Hp. Qed.

(** An inherited name is always found in the app buffer: the value shown is
    the app buffer's own entry if it has one, else the inherited member;
    neither the project buffer, the snapshot nor the fallback is consulted. *)
Lemma getEffective_inherited s key fallback :
  key ∈ OBJECT_PROTOTYPE_KEYS →
  getEffective s key fallback
    = default (VInherited key) (pendingAppChanges s !! key).
Proof.
  intros Hin. unfold getEffective, has, prop.
  rewrite (bool_decide_eq_true_2 _ Hin), orb_true_r.
  by destruct (pendingAppChanges s !! key).
Qed.

(** The badge: the snapshot's entry for the key when it is truthy, else
    ['default'].  On a name that is not inherited the entry is an own
    property of [effectiveSettings.sources]. *)
Lemma getSource_own s key :
  key ∉ OBJECT_PROTOTYPE_KEYS →
  getSource s key
    = match effective_sources s ≫= (.!! key) with
      | Some source => if truthy source then source else VStr "default"
      | None => VStr "default"
      end.
Proof.
  intros Hown. unfold getSource, or_else. rewrite (opt_prop_own _ _ Hown).
  by destruct (effective_sources s ≫= _).
Qed.

(** The badge only reads the snapshot. *)
Lemma getSource_snapshot s s' key :
  effectiveSettings s' = effectiveSettings s →
  getSource s' key = getSource s key.
Proof. intros He. unfold getSource, effective_sources. by rewrite He. Qed.

End handler_facts.

(** ** The effective view over the pending buffers *)

(** An inherited name is found in the app buffer even when only the
    project buffer owns it: the value shown is then the inherited member,
    not the project buffer's entry. *)
Lemma inherited_name_found_in_app_buffer :
  let s := setPendingProjectChanges
             (fun _ => {[ "toString" := VStr "x" ]}) demo_loaded in
  pendingProjectChanges s !! "toString" = Some (VStr "x")
  ∧ pendingAppChanges s !! "toString" = None
  ∧ has (pendingAppChanges s) "toString" = true
  ∧ getEffective s "toString" (VNum 1) = VInherited "toString".
Proof. by repeat split. Qed.

(** C1, as the code has it: a key that the project-scope buffer holds, and
    that [in] does not find in the app-scope buffer, is shown with its
    buffered value before any save.  The source badge is not forced to
    ['project']: it is what the last fetched snapshot reports for the key
    under [sources] (['default'] when it reports nothing truthy), so it
    reads ['project'] only if the snapshot already says so, and it is the
    same as if the edit had been discarded. *)
Theorem project_pending_value_shown (s : Modal) (key : string) (v fallback : value) :
  pendingProjectChanges s !! key = Some v →
  has (pendingAppChanges s) key = false →
  let reported :=
    match effective_sources s ≫= (.!! key) with
    | Some source => if truthy source then source else VStr "default"
    | None => VStr "default"
    end in
  getEffective s key fallback = v
  ∧ getSource s key = reported
  ∧ effectiveView s key fallback = Resolved v reported
  ∧ (getSource s key = VStr "project" →
     effective_sources s ≫= (.!! key) = Some (VStr "project"))
  ∧ getSource s key = getSource (handleCancel s) key.
Proof.
  intros Hp Ha reported.
  pose proof (proj2 (proj1 (has_false _ _) Ha)) as Hown.
  assert (getSource s key = reported) as Hsrc by (by apply getSource_own).
  assert (getEffective s key fallback = v) as Hval
    by (by apply getEffective_project_pending).
  split; [done|]. split; [done|].
  split; [unfold effectiveView; by rewrite Hval, Hsrc|].
  split.
  - rewrite Hsrc. subst reported.
    destruct (effective_sources s ≫= _) as [source|]; [|done].
    destruct (truthy source); [by intros ->|done].
  - symmetry. by apply getSource_snapshot.
Qed.

Lemma project_pending_value_shown_witness :
  pendingProjectChanges demo_project_edit !! "yoloMode" = Some (VBool true)
  ∧ has (pendingAppChanges demo_project_edit) "yoloMode" = false
  ∧ effectiveView demo_project_edit "yoloMode" (VBool false)
    = Resolved (VBool true) (VStr "app").
Proof.
  split; [reflexivity|]. split; [reflexivity|].
  apply (project_pending_value_shown demo_project_edit "yoloMode"
           (VBool true) (VBool false)); reflexivity.
Defined.

(** C1 as stated fails: with [yoloMode] supplied by the app scope, a
    buffered project-scope edit shows the new value under the badge ['app'],
    not ['project']. *)
Lemma project_pending_source_not_forced :
  pendingProjectChanges demo_project_edit !! "yoloMode" = Some (VBool true)
  ∧ effectiveView demo_project_edit "yoloMode" (VBool false)
    = Resolved (VBool true) (VStr "app")
  ∧ effectiveView demo_project_edit "yoloMode" (VBool false)
    ≠ Resolved (VBool true) (VStr "project").
Proof.
  split; [reflexivity|]. split; [reflexivity|].
  vm_compute. discriminate.
Qed.

(** C2 fails on the code: [getEffective] looks at the app-scope buffer
    first, so a key pending in both buffers is shown with the app-scope
    value. *)
Lemma both_pending_app_value_shown :
  pendingAppChanges demo_both_edits !! "yoloMode" = Some (VBool false)
  ∧ pendingProjectChanges demo_both_edits !! "yoloMode" = Some (VBool true)
  ∧ getEffective demo_both_edits "yoloMode" (VBool false) = VBool false
  ∧ getEffective demo_both_edits "yoloMode" (VBool false) ≠ VBool true.
Proof.
  split; [reflexivity|]. split; [reflexivity|]. split; [reflexivity|].
  vm_compute. discriminate.
Qed.

(** ** Cancel *)

Lemma buffered_edit_same_outside (s : Modal) (e : Event) :
  buffered_edit e = true → same_outside_buffers s (step s e).
Proof.
  destruct e; simpl; try done; intros Hb.
  - apply handleAppChange_agent_same_outside.
    apply negb_true_iff, no_keys_empty in Hb.
    intros key [v Hv] Hui.
    pose proof (classify_ui_lookup update key v Hv Hui) as Hin.
    by rewrite Hb, lookup_empty in Hin.
  - apply handleProjectChange_same_outside.
Qed.

Lemma buffered_edits_same_outside (edits : list Event) (s : Modal) :
  forallb buffered_edit edits = true → same_outside_buffers s (run edits s).
Proof.
  revert s. induction edits as [|e edits IH]; intros s Hall.
  - apply same_outside_buffers_refl.
  - simpl in Hall. apply andb_true_iff in Hall as [He Hall].
    simpl. eapply same_outside_buffers_trans.
    + by apply buffered_edit_same_outside.
    + by apply IH.
Qed.

(** C3: after any sequence of buffered edits, cancel leaves both buffers
    empty, has sent nothing to the store (neither the edits nor the cancel
    did), and every key is shown as it resolves without pending edits: the
    snapshot's value, or the fallback, under the snapshot's source (a name
    inherited from [Object.prototype] being found in the empty app buffer
    and shown as that inherited member).  Starting from a state without
    pending edits, edit-then-cancel gives back that very state, hence the
    same view of every key. *)
Theorem cancel_after_edits (s : Modal) (edits : list Event) :
  forallb buffered_edit edits = true →
  let s' := handleCancel (run edits s) in
  pendingAppChanges s' = ∅
  ∧ pendingProjectChanges s' = ∅
  ∧ requests (run edits s) = requests s
  ∧ requests s' = requests s
  ∧ (∀ key fallback,
       getEffective s' key fallback
         = (if bool_decide (key ∈ OBJECT_PROTOTYPE_KEYS) then VInherited key
            else
              let value := opt_prop (effective_settings s) key in
              if bool_decide (value ≠ VUndefined) then value else fallback)
       ∧ getSource s' key = getSource s key)
  ∧ (pendingAppChanges s = ∅ → pendingProjectChanges s = ∅ →
     s' = s
     ∧ ∀ key fallback,
         effectiveView s' key fallback = effectiveView s key fallback).
Proof.
  intros Hall s'.
  pose proof (buffered_edits_same_outside edits s Hall) as Hsame.
  assert (s' = handleCancel s) as Hs'
    by (by apply cancel_same_outside_buffers).
  destruct Hsame as (_&_&_&_&_&_&_&Hreq).
  split; [done|]. split; [done|]. split; [done|].
  split; [by rewrite Hs'|]. split.
  - intros key fallback. rewrite Hs'. split.
    + case_bool_decide as Hkey.
      * by rewrite (getEffective_inherited _ _ _ Hkey).
      * rewrite getEffective_not_pending; [done| |];
          simpl; by rewrite has_empty, bool_decide_eq_false_2.
    + by apply getSource_snapshot.
  - intros Ha Hp. rewrite Hs', (cancel_empty_buffers s Ha Hp). done.
Qed.

Lemma cancel_after_edits_witness :
  forallb buffered_edit
    [AppChange {[ "yoloMode" := VBool false ]};
     ProjectChange {[ "yoloMode" := VBool true ]}] = true
  ∧ handleCancel demo_both_edits = demo_loaded.
Proof.
  split; [reflexivity|].
  apply (cancel_after_edits demo_loaded
           [AppChange {[ "yoloMode" := VBool false ]};
            ProjectChange {[ "yoloMode" := VBool true ]}]); reflexivity.
Defined.

(** ** Save *)

(** C4: when the app-scope write succeeds and the project-scope write
    fails, the save ends rejected with the app-scope buffer empty and the
    project-scope buffer exactly as it was; the app-scope entries had all
    been sent before their buffer was cleared. *)
Theorem save_app_ok_project_fails (s : Modal) (name : string) :
  projectName s = Some name →
  hasProject s = true →
  hasUnsavedProjectChanges s = true →
  let r := handleSave true false s in
  r.2 = Rejected
  ∧ pendingAppChanges r.1 = ∅
  ∧ pendingProjectChanges r.1 = pendingProjectChanges s
  ∧ requests r.1
    = (requests s
       ++ (if hasUnsavedAppChanges s
           then [UpdateAppSettingsV2 (pendingAppChanges s)] else [])
       ++ [UpdateProjectSettingsV2 name (pendingProjectChanges s)])%list.
Proof.
  intros Hname Hproj Hdirty. unfold_save.
  rewrite Hname, Hproj, Hdirty.
  destruct (hasUnsavedAppChanges s) eqn:Happ; simpl.
  - repeat split. by rewrite <- app_assoc.
  - apply no_keys_empty in Happ. by repeat split.
Qed.

Lemma save_app_ok_project_fails_witness :
  projectName demo_both_edits = Some "demo"
  ∧ hasProject demo_both_edits = true
  ∧ hasUnsavedProjectChanges demo_both_edits = true
  ∧ (handleSave true false demo_both_edits).2 = Rejected
  ∧ pendingAppChanges (handleSave true false demo_both_edits).1 = ∅
  ∧ pendingProjectChanges (handleSave true false demo_both_edits).1
    = {[ "yoloMode" := VBool true ]}.
Proof.
  split; [reflexivity|]. split; [reflexivity|]. split; [reflexivity|].
  destruct (save_app_ok_project_fails demo_both_edits "demo"
              eq_refl eq_refl eq_refl) as (Hout & Happ & Hproj & _).
  split; [exact Hout|]. split; [exact Happ|].
  rewrite Hproj. reflexivity.
Defined.

(** C5: with both buffers empty, save sends nothing; it returns the state
    untouched and fulfilled, whatever the store would have answered. *)
Theorem save_nothing_pending (s : Modal) (app_ok project_ok : bool) :
  pendingAppChanges s = ∅ →
  pendingProjectChanges s = ∅ →
  hasUnsavedChanges s = false
  ∧ handleSave app_ok project_ok s = (s, Fulfilled tt)
  ∧ requests (handleSave app_ok project_ok s).1 = requests s.
Proof.
  intros Ha Hp.
  assert (hasUnsavedAppChanges s = false) as Hna
    by (by apply no_keys_empty).
  assert (hasUnsavedProjectChanges s = false) as Hnp
    by (by apply no_keys_empty).
  assert (handleSave app_ok project_ok s = (s, Fulfilled tt)) as Hsave.
  { unfold_save. rewrite Hna, Hnp. simpl. by destruct (projectName s). }
  split; [unfold hasUnsavedChanges; by rewrite Hna, Hnp|].
  split; [done|]. by rewrite Hsave.
Qed.

Lemma save_nothing_pending_witness :
  pendingAppChanges demo_loaded = ∅
  ∧ pendingProjectChanges demo_loaded = ∅
  ∧ handleSave true true demo_loaded = (demo_loaded, Fulfilled tt).
Proof.
  split; [reflexivity|]. split; [reflexivity|].
  apply (save_nothing_pending demo_loaded true true); reflexivity.
Defined.

(** ** UI-only keys *)

Lemma agent_keys_only_empty : agent_keys_only ∅.
Proof. intros key [v Hv]. by rewrite lookup_empty in Hv. Qed.

Lemma step_agent_keys_only (s : Modal) (e : Event) :
  agent_keys_only (pendingAppChanges s) →
  agent_keys_only (pendingAppChanges (step s e)).
Proof.
  intros Hinv. destruct e; simpl.
  - destruct (handleAppChange_app_buffer s update) as [-> | ->]; [done|].
    intros key Hk. unfold spread in Hk.
    apply lookup_union_is_Some in Hk as [Hk|Hk].
    + by apply (classify_agent_keys update).
    + by apply Hinv.
  - by rewrite handleProjectChange_app_buffer.
  - destruct (handleSave_app_buffer s app_ok project_ok) as [-> | ->];
      [done | apply agent_keys_only_empty].
  - apply agent_keys_only_empty.
  - unfold_handlers. destruct (projectName s); [|done].
    by destruct (hasProject s).
  - unfold_handlers. destruct (Bool.eqb open (isOpen s)); [done|].
    destruct open; simpl; [done | apply agent_keys_only_empty].
  - done.
  - done.
  - done.
  - done.
  - done.
  - done.
Qed.

Lemma run_agent_keys_only (events : list Event) (s : Modal) :
  agent_keys_only (pendingAppChanges s) →
  agent_keys_only (pendingAppChanges (run events s)).
Proof.
  revert s. induction events as [|e events IH]; intros s Hinv; [done|].
  simpl. by apply IH, step_agent_keys_only.
Qed.

(** C6, as the code has it: an app-scope edit to a UI-only key, made while
    no save is in flight, is sent to the store at once with its new value
    and reaches neither buffer; when the whole update is UI-only both
    buffers, and with them [hasUnsavedChanges], stay as they were.  In every
    state a session can reach, the app-scope buffer holds agent keys only. *)
Theorem ui_only_edit_applied_at_once :
  (∀ (s : Modal) (update : Settings) (key : string) (v : value),
     reachable s →
     isSaving s = false →
     update !! key = Some v →
     key ∈ UI_ONLY_SETTINGS →
     let s' := handleAppChange update s in
     (∃ uiChanges,
        requests s' = (requests s ++ [UpdateAppSettingsV2 uiChanges])%list
        ∧ uiChanges !! key = Some v)
     ∧ pendingAppChanges s' !! key = None
     ∧ pendingProjectChanges s' = pendingProjectChanges s
     ∧ ((∀ k, is_Some (update !! k) → k ∈ UI_ONLY_SETTINGS) →
        pendingAppChanges s' = pendingAppChanges s
        ∧ hasUnsavedChanges s' = hasUnsavedChanges s))
  ∧ (∀ (s : Modal) (key : string),
       reachable s →
       is_Some (pendingAppChanges s !! key) → key ∉ UI_ONLY_SETTINGS).
Proof.
  assert (∀ s, reachable s → agent_keys_only (pendingAppChanges s)) as Hinv.
  { intros s (open & project & events & ->).
    apply run_agent_keys_only, agent_keys_only_empty. }
  split; [|intros s key Hr; by apply Hinv].
  intros s update key v Hr Hsaving Hk Hui s'.
  pose proof (classify_ui_lookup update key v Hk Hui) as Hsent.
  assert ((0 <? keys_length (classify update).1)%nat = true) as Hsome.
  { apply some_keys_nonempty. intros Hempty.
    by rewrite Hempty, lookup_empty in Hsent. }
  assert (pendingAppChanges s' !! key = None) as Hout.
  { destruct (pendingAppChanges s' !! key) eqn:Hin; [|done].
    exfalso. apply (step_agent_keys_only s (AppChange update) (Hinv s Hr) key);
      [|done].
    simpl. fold s'. by rewrite Hin. }
  split; [|split; [done|split]].
  - exists (classify update).1. split; [|done].
    subst s'. unfold_handlers. rewrite Hsaving, Hsome.
    by destruct (0 <? keys_length (classify update).2)%nat.
  - apply handleAppChange_project_buffer.
  - intros Hall. subst s'. unfold handleAppChange, hasUnsavedChanges,
      hasUnsavedAppChanges, hasUnsavedProjectChanges.
    rewrite Hsaving. rewrite (classify_all_ui update Hall) in Hsome |- *.
    simpl in *. rewrite Hsome.
    replace (0 <? keys_length (∅ : Settings))%nat with false
      by (symmetry; by apply no_keys_empty).
    done.
Qed.

Lemma ui_only_edit_applied_at_once_witness :
  reachable demo_loaded
  ∧ isSaving demo_loaded = false
  ∧ ({[ "showDebugPanel" := VBool true ]} : Settings) !! "showDebugPanel"
    = Some (VBool true)
  ∧ "showDebugPanel" ∈ UI_ONLY_SETTINGS
  ∧ pendingAppChanges
      (handleAppChange {[ "showDebugPanel" := VBool true ]} demo_loaded)
      !! "showDebugPanel" = None.
Proof.
  assert (reachable demo_loaded) as Hr.
  { exists true, (Some "demo"),
      [ProjectFetched (Some {[ "yoloMode" := VNull ]});
       Refetched (Some yolo_snapshot)].
    reflexivity. }
  assert ("showDebugPanel" ∈ UI_ONLY_SETTINGS) as Hui.
  { vm_compute. reflexivity. }
  assert (isSaving demo_loaded = false) as Hidle by reflexivity.
  assert (({[ "showDebugPanel" := VBool true ]} : Settings) !! "showDebugPanel"
          = Some (VBool true)) as Hk by reflexivity.
  split; [exact Hr|]. split; [exact Hidle|]. split; [exact Hk|].
  split; [exact Hui|].
  apply (proj1 ui_only_edit_applied_at_once demo_loaded
           {[ "showDebugPanel" := VBool true ]} "showDebugPanel" (VBool true)
           Hr Hidle Hk Hui).
Defined.

(** C6 as stated fails while a write is pending: the edit to a UI-only key
    is dropped, nothing is sent to the store. *)
Lemma ui_only_edit_dropped_while_saving :
  reachable demo_saving
  ∧ isSaving demo_saving = true
  ∧ "celebrateOnComplete" ∈ UI_ONLY_SETTINGS
  ∧ requests (handleAppChange {[ "celebrateOnComplete" := VBool false ]} demo_saving)
    = requests demo_saving
  ∧ ¬ ∃ uiChanges,
        requests (handleAppChange {[ "celebrateOnComplete" := VBool false ]}
                    demo_saving)
        = (requests demo_saving ++ [UpdateAppSettingsV2 uiChanges])%list.
Proof.
  split.
  { exists true, (Some "demo"),
      [ProjectFetched (Some {[ "yoloMode" := VNull ]});
       Refetched (Some yolo_snapshot);
       AppChange {[ "showDebugPanel" := VBool true ]}].
    reflexivity. }
  split; [reflexivity|].
  split; [vm_compute; reflexivity|].
  split; [reflexivity|].
  intros [uiChanges Heq].
  change (handleAppChange {[ "celebrateOnComplete" := VBool false ]} demo_saving)
    with demo_saving in Heq.
  apply (f_equal length) in Heq. rewrite length_app in Heq. simpl in Heq. lia.
Qed.

(** ** Unknown keys and missing snapshots *)

(** C7, as the code has it: resolution is total over all keys, recognized
    or not.  Every key is shown with a value and a source and nothing is
    refused: the value is the app buffer's entry, else (for a name inherited
    from [Object.prototype], which [in] finds in any buffer) the inherited
    member, else the project buffer's entry, else the snapshot's value, else
    the fallback.  A key that [in] finds in neither buffer and that the
    snapshot does not mention, as is an ordinary key outside the schema, is
    shown with the caller's fallback under ['default']. *)
Theorem resolution_total (s : Modal) (key : string) (fallback : value) :
  (∃ shown source,
     effectiveView s key fallback = Resolved shown source
     ∧ (pendingAppChanges s !! key = Some shown
        ∨ (key ∈ OBJECT_PROTOTYPE_KEYS ∧ shown = VInherited key)
        ∨ pendingProjectChanges s !! key = Some shown
        ∨ (shown = opt_prop (effective_settings s) key ∧ shown ≠ VUndefined)
        ∨ shown = fallback))
  ∧ effectiveView s key fallback ≠ Refused UnknownKeyError
  ∧ (has (pendingAppChanges s) key = false →
     has (pendingProjectChanges s) key = false →
     opt_prop (effective_settings s) key = VUndefined →
     opt_prop (effective_sources s) key = VUndefined →
     effectiveView s key fallback = Resolved fallback (VStr "default"))
  ∧ (key ∈ OBJECT_PROTOTYPE_KEYS →
     pendingAppChanges s !! key = None →
     getEffective s key fallback = VInherited key).
Proof.
  split; [|split; [done|split]].
  - exists (getEffective s key fallback), (getSource s key).
    split; [done|].
    destruct (decide (key ∈ OBJECT_PROTOTYPE_KEYS)) as [Hin|Hown].
    + rewrite (getEffective_inherited s key fallback Hin).
      destruct (pendingAppChanges s !! key); simpl; auto.
    + destruct (pendingAppChanges s !! key) as [va|] eqn:Ha.
      { left. by rewrite (getEffective_app_pending s key va fallback Ha). }
      assert (has (pendingAppChanges s) key = false) as Hna
        by (by apply has_false).
      destruct (pendingProjectChanges s !! key) as [vp|] eqn:Hp.
      { right. right. left.
        by rewrite (getEffective_project_pending s key vp fallback Hna Hp). }
      assert (has (pendingProjectChanges s) key = false) as Hnp
        by (by apply has_false).
      rewrite (getEffective_not_pending s key fallback Hna Hnp). simpl.
      case_bool_decide; auto 6.
  - intros Happ Hproj Hset Hsrc. unfold effectiveView, getSource.
    rewrite (getEffective_not_pending s key fallback Happ Hproj), Hset, Hsrc.
    reflexivity.
  - intros Hin Ha. by rewrite (getEffective_inherited s key fallback Hin), Ha.
Qed.

Lemma resolution_total_witness :
  has (pendingAppChanges demo_loaded) "noSuchSetting" = false
  ∧ has (pendingProjectChanges demo_loaded) "noSuchSetting" = false
  ∧ opt_prop (effective_settings demo_loaded) "noSuchSetting" = VUndefined
  ∧ opt_prop (effective_sources demo_loaded) "noSuchSetting" = VUndefined
  ∧ effectiveView demo_loaded "noSuchSetting" (VNum 1)
    = Resolved (VNum 1) (VStr "default").
Proof.
  split; [reflexivity|]. split; [reflexivity|]. split; [reflexivity|].
  split; [reflexivity|].
  apply (resolution_total demo_loaded "noSuchSetting" (VNum 1)); reflexivity.
Defined.

(** C7 as stated fails: a key outside the schema is not rejected with
    [UnknownKeyError]; it is shown with the fallback under ['default']. *)
Lemma unknown_key_resolves :
  ("noSuchSetting" ∉ SETTING_KEYS)
  ∧ effectiveView demo_loaded "noSuchSetting" (VNum 1)
    = Resolved (VNum 1) (VStr "default")
  ∧ effectiveView demo_loaded "noSuchSetting" (VNum 1)
    ≠ Refused UnknownKeyError.
Proof.
  split; [vm_compute; discriminate|]. split; [reflexivity|]. discriminate.
Qed.

(** C8, as the code has it: without a snapshot the view still answers.  The
    source of every key is ['default']; a key that [in] finds in neither
    buffer is shown with the caller's fallback, and an inherited name that
    the app buffer does not own with the inherited member; nothing reports
    [Unavailable]. *)
Theorem no_snapshot_falls_back (s : Modal) (key : string) (fallback : value) :
  effectiveSettings s = None →
  getSource s key = VStr "default"
  ∧ effectiveView s key fallback ≠ Refused Unavailable
  ∧ (has (pendingAppChanges s) key = false →
     has (pendingProjectChanges s) key = false →
     effectiveView s key fallback = Resolved fallback (VStr "default"))
  ∧ (key ∈ OBJECT_PROTOTYPE_KEYS →
     pendingAppChanges s !! key = None →
     effectiveView s key fallback = Resolved (VInherited key) (VStr "default")).
Proof.
  intros Hnone.
  assert (getSource s key = VStr "default") as Hsrc
    by (unfold getSource, effective_sources; by rewrite Hnone).
  split; [done|]. split; [done|]. split.
  - intros Happ Hproj. unfold effectiveView.
    rewrite Hsrc, (getEffective_not_pending s key fallback Happ Hproj).
    unfold effective_settings. by rewrite Hnone.
  - intros Hin Ha. unfold effectiveView.
    by rewrite Hsrc, (getEffective_inherited s key fallback Hin), Ha.
Qed.

Lemma no_snapshot_falls_back_witness :
  effectiveSettings demo_opening = None
  ∧ getSource demo_opening "yoloMode" = VStr "default".
Proof.
  split; [reflexivity|].
  apply (no_snapshot_falls_back demo_opening "yoloMode" (VBool false));
    reflexivity.
Defined.

(** C8 as stated fails: in a freshly opened modal whose effective settings
    have not arrived, the Project tab renders its rows and shows [yoloMode]
    with the fallback [false] under ['default'] instead of reporting
    [Unavailable]. *)
Lemma no_snapshot_not_unavailable :
  effectiveSettings demo_opening = None
  ∧ projectRowsRendered demo_opening = true
  ∧ effectiveView demo_opening "yoloMode" (VBool false)
    = Resolved (VBool false) (VStr "default")
  ∧ effectiveView demo_opening "yoloMode" (VBool false)
    ≠ Refused Unavailable.
Proof.
  split; [reflexivity|]. split; [reflexivity|]. split; [reflexivity|].
  discriminate.
Qed.

(** ** Edits during a save, and closing *)

(** C9: while a save is in flight, an app-scope or project-scope edit is a
    no-op; the state, with both buffers and the requests sent, is returned
    as it was. *)
Theorem edits_ignored_while_saving (s : Modal) (update : Settings) :
  isSaving s = true →
  handleAppChange update s = s
  ∧ handleProjectChange update s = s
  ∧ requests (handleAppChange update s) = requests s
  ∧ requests (handleProjectChange update s) = requests s
  ∧ pendingAppChanges (handleAppChange update s) = pendingAppChanges s
  ∧ pendingProjectChanges (handleProjectChange update s)
    = pendingProjectChanges s.
Proof.
  intros Hsaving.
  assert (handleAppChange update s = s) as ->
    by (unfold handleAppChange; by rewrite Hsaving).
  assert (handleProjectChange update s = s) as ->
    by (unfold handleProjectChange; by rewrite Hsaving).
  by repeat split.
Qed.

Lemma edits_ignored_while_saving_witness :
  isSaving demo_saving = true
  ∧ handleAppChange {[ "yoloMode" := VBool true ]} demo_saving = demo_saving
  ∧ handleProjectChange {[ "yoloMode" := VBool true ]} demo_saving = demo_saving.
Proof.
  split; [reflexivity|].
  destruct (edits_ignored_while_saving demo_saving
              {[ "yoloMode" := VBool true ]} eq_refl) as (Happ & Hproj & _).
  split; [exact Happ | exact Hproj].
Defined.

(** C10: closing an open modal empties both buffers, whatever they held,
    and sends nothing to the store. *)
Theorem close_discards_pending (s : Modal) :
  isOpen s = true →
  isOpen (closeModal s) = false
  ∧ pendingAppChanges (closeModal s) = ∅
  ∧ pendingProjectChanges (closeModal s) = ∅
  ∧ requests (closeModal s) = requests s.
Proof.
  intros Hopen. unfold closeModal, renderIsOpen. rewrite Hopen. simpl.
  by repeat split.
Qed.

Lemma close_discards_pending_witness :
  isOpen demo_both_edits = true
  ∧ hasUnsavedChanges demo_both_edits = true
  ∧ pendingAppChanges (closeModal demo_both_edits) = ∅
  ∧ pendingProjectChanges (closeModal demo_both_edits) = ∅
  ∧ requests (closeModal demo_both_edits) = requests demo_both_edits.
Proof.
  split; [reflexivity|]. split; [reflexivity|].
  destruct (close_discards_pending demo_both_edits eq_refl)
    as (_ & Happ & Hproj & Hreq).
  split; [exact Happ|]. split; [exact Hproj | exact Hreq].
Defined.

(** * Server health *)

Lemma health_check_consistent (outcome : Health.FetchOutcome) (now : Z)
    (st : Health.ServerHealthState) :
  Health.consistent st → Health.consistent (Health.checkHealth outcome now st).
Proof.
  intros ([Hlo Hhi] & Hh & Hr).
  unfold Health.consistent, Health.checkHealth, Health.showWarning,
    Health.incr, Health.MAX_FAILURES_BEFORE_WARNING.
  destruct outcome as [[]|]; simpl;
    repeat case_match; repeat split; try done; try lia;
    rewrite ?Z.ltb_lt, ?Z.ltb_ge, ?Z.leb_le, ?Z.leb_gt in *; try lia;
    intros; try lia; try done.
Qed.

Lemma health_run_consistent (checks : list (Health.FetchOutcome * Z))
    (st : Health.ServerHealthState) :
  Health.consistent st → Health.consistent (Health.run checks st).
Proof.
  revert st. induction checks as [|c checks IH]; intros st Hst; [done|].
  simpl. by apply IH, health_check_consistent.
Qed.

(** X1: whatever the results of the checks since the hook was mounted, the
    state stays consistent: [isHealthy] is false exactly when the warning is
    due (three or more consecutive failures), and [isRecovering] is only
    ever set on a state with no failure counted. *)
Theorem health_state_consistent (checks : list (Health.FetchOutcome * Z)) :
  let st := Health.run checks Health.initial in
  Health.isHealthy st = negb (Health.showWarning st)
  ∧ (Health.isHealthy st = false ↔ (3 ≤ Health.consecutiveFailures st)%Z)
  ∧ (Health.isRecovering st = true →
     Health.isHealthy st = true ∧ Health.consecutiveFailures st = 0%Z)
  ∧ (0 ≤ Health.consecutiveFailures st ≤ 2 ^ 53)%Z.
Proof.
  intros st.
  assert (Health.consistent st) as (Hrange & Hh & Hr).
  { apply health_run_consistent. unfold Health.consistent. simpl.
    split; [lia|]. by split. }
  split; [done|]. split; [|split; [|done]].
  - rewrite Hh. unfold Health.showWarning, Health.MAX_FAILURES_BEFORE_WARNING.
    rewrite negb_false_iff. apply Z.leb_le.
  - intros Hrec. specialize (Hr Hrec). split; [|done].
    rewrite Hh. unfold Health.showWarning. by rewrite Hr.
Qed.

Lemma health_failures_add (fails : list (Health.FetchOutcome * Z))
    (st : Health.ServerHealthState) :
  forallb Health.failed fails = true →
  (0 ≤ Health.consecutiveFailures st ≤ 2 ^ 53)%Z →
  Health.consecutiveFailures (Health.run fails st)
    = Z.min (Health.consecutiveFailures st + Z.of_nat (length fails)) (2 ^ 53).
Proof.
  revert st. induction fails as [|[o now] fails IH]; intros st Hall Hrange.
  - simpl. lia.
  - simpl in Hall. apply andb_true_iff in Hall as [Ho Hall].
    change (Health.run ((o, now) :: fails) st)
      with (Health.run fails (Health.checkHealth o now st)).
    assert (Health.consecutiveFailures (Health.checkHealth o now st)
            = Health.incr (Health.consecutiveFailures st)) as Hstep.
    { unfold Health.failed in Ho. simpl in Ho. by destruct o as [[]|]. }
    rewrite IH, Hstep; [|done|rewrite Hstep]; unfold Health.incr;
      destruct (Z.ltb_spec (Health.consecutiveFailures st) (2 ^ 53));
      simpl length; lia.
Qed.

(** X2: the counter counts the failed checks since the last successful one.
    After a successful check followed by failed ones only, it equals their
    number (capped at 2^53, where a JavaScript number stops incrementing). *)
Theorem health_failures_counted (st : Health.ServerHealthState) (now : Z)
    (fails : list (Health.FetchOutcome * Z)) :
  forallb Health.failed fails = true →
  Health.consecutiveFailures
    (Health.run fails (Health.checkHealth (Health.Responded true) now st))
  = Z.min (Z.of_nat (length fails)) (2 ^ 53).
Proof.
  intros Hall. rewrite health_failures_add; [done|done|simpl; lia].
Qed.

Lemma health_failures_counted_witness :
  forallb Health.failed
    [(Health.Threw, 10000%Z); (Health.Responded false, 20000%Z)] = true
  ∧ Health.consecutiveFailures
      (Health.run [(Health.Threw, 10000%Z); (Health.Responded false, 20000%Z)]
         (Health.checkHealth (Health.Responded true) 0 Health.initial))
    = 2%Z.
Proof.
  split; [reflexivity|].
  apply (health_failures_counted Health.initial 0
           [(Health.Threw, 10000%Z); (Health.Responded false, 20000%Z)]).
  reflexivity.
Defined.

Lemma health_failed_not_recovering (fails : list (Health.FetchOutcome * Z))
    (st : Health.ServerHealthState) :
  forallb Health.failed fails = true → fails ≠ [] →
  Health.isRecovering (Health.run fails st) = false.
Proof.
  revert st. induction fails as [|[o now] fails IH]; intros st Hall Hne; [done|].
  simpl in Hall. apply andb_true_iff in Hall as [Ho Hall].
  change (Health.run ((o, now) :: fails) st)
    with (Health.run fails (Health.checkHealth o now st)).
  destruct fails as [|c fails]; [|by apply IH].
  unfold Health.failed in Ho. simpl in *. by destruct o as [[]|].
Qed.

(** X3: the banner during an outage.  After a successful check, one or two
    failed checks show nothing; the third shows the warning without a count;
    from the fourth on the warning carries the number of failed attempts. *)
Theorem health_banner_during_outage (st : Health.ServerHealthState) (now : Z)
    (fails : list (Health.FetchOutcome * Z)) :
  forallb Health.failed fails = true →
  (1 ≤ length fails)%nat →
  Health.ServerStatusBanner
    (Health.run fails (Health.checkHealth (Health.Responded true) now st))
  = (if (length fails <? 3)%nat then Health.NoBanner
     else if (length fails =? 3)%nat then Health.WarningBanner None
     else Health.WarningBanner (Some (Z.min (Z.of_nat (length fails)) (2 ^ 53)))).
Proof.
  intros Hall Hlen. unfold Health.ServerStatusBanner, Health.showWarning.
  assert (fails ≠ []) as Hne by (intros ->; simpl in Hlen; lia).
  rewrite (health_failed_not_recovering fails _ Hall Hne).
  rewrite (health_failures_add fails _ Hall) by (simpl; lia).
  change (Health.consecutiveFailures
            (Health.checkHealth (Health.Responded true) now st)) with 0%Z.
  rewrite Z.add_0_l.
  unfold Health.MAX_FAILURES_BEFORE_WARNING.
  destruct (Nat.ltb_spec (length fails) 3) as [Hlt|Hge].
  - replace (3 <=? _)%Z with false; [done|]. symmetry. apply Z.leb_gt. lia.
  - replace (3 <=? _)%Z with true by (symmetry; apply Z.leb_le; lia). simpl.
    destruct (Nat.eqb_spec (length fails) 3) as [Heq|Hneq].
    + replace (3 <? _)%Z with false; [done|]. symmetry. apply Z.ltb_ge. lia.
    + replace (3 <? _)%Z with true; [done|]. symmetry. apply Z.ltb_lt. lia.
Qed.

Lemma health_banner_during_outage_witness :
  forallb Health.failed
    [(Health.Threw, 1%Z); (Health.Threw, 2%Z); (Health.Threw, 3%Z);
     (Health.Responded false, 4%Z)] = true
  ∧ (1 ≤ 4)%nat
  ∧ Health.ServerStatusBanner
      (Health.run
         [(Health.Threw, 1%Z); (Health.Threw, 2%Z); (Health.Threw, 3%Z);
          (Health.Responded false, 4%Z)]
         (Health.checkHealth (Health.Responded true) 0 Health.initial))
    = Health.WarningBanner (Some 4%Z).
Proof.
  split; [reflexivity|]. split; [lia|].
  apply (health_banner_during_outage Health.initial 0
           [(Health.Threw, 1%Z); (Health.Threw, 2%Z); (Health.Threw, 3%Z);
            (Health.Responded false, 4%Z)]); [reflexivity | simpl; lia].
Defined.

(** X4: the recovery message.  A successful check shows it exactly when the
    warning was due before that check, so a blip of one or two failures
    recovers silently; the next successful check removes it again. *)
Theorem health_recovery_banner (st : Health.ServerHealthState) (now later : Z) :
  Health.ServerStatusBanner (Health.checkHealth (Health.Responded true) now st)
    = (if Health.showWarning st then Health.RecoveredBanner else Health.NoBanner)
  ∧ Health.ServerStatusBanner
      (Health.checkHealth (Health.Responded true) later
         (Health.checkHealth (Health.Responded true) now st))
    = Health.NoBanner.
Proof.
  unfold Health.ServerStatusBanner, Health.showWarning. simpl.
  by destruct (Health.MAX_FAILURES_BEFORE_WARNING
               <=? Health.consecutiveFailures st)%Z.
Qed.

(** * Preferences kept in local storage *)

(** X5: with storage that can be read and written, toggling the sidebar
    flips [isCollapsed] and stores it, so that a sidebar mounted afterwards
    starts in the state just chosen; no other stored item is touched. *)
Theorem sidebar_toggle_persisted (isCollapsed : bool) (ls : Storage.LocalStorage) :
  Storage.readable ls = true →
  Storage.writable ls = true →
  let r := Sidebar.toggleCollapsed isCollapsed ls in
  r.1 = negb isCollapsed
  ∧ Sidebar.initialCollapsed r.2 = r.1
  ∧ (∀ k, k ≠ Sidebar.SIDEBAR_COLLAPSED_KEY →
       Storage.items r.2 !! k = Storage.items ls !! k).
Proof.
  intros Hr Hw. unfold Sidebar.toggleCollapsed, Sidebar.initialCollapsed,
    Storage.setItem, Storage.getItem.
  rewrite Hw. simpl. rewrite Hr. split; [done|]. split.
  - rewrite lookup_insert_eq. by destruct isCollapsed.
  - intros k Hk. by rewrite lookup_insert_ne.
Qed.

Lemma sidebar_toggle_persisted_witness :
  Storage.readable (Storage.mkStorage ∅ true true) = true
  ∧ Storage.writable (Storage.mkStorage ∅ true true) = true
  ∧ Sidebar.initialCollapsed
      (Sidebar.toggleCollapsed false (Storage.mkStorage ∅ true true)).2 = true.
Proof.
  split; [reflexivity|]. split; [reflexivity|].
  destruct (sidebar_toggle_persisted false (Storage.mkStorage ∅ true true)
              eq_refl eq_refl) as (Hflip & Hinit & _).
  rewrite Hinit, Hflip. reflexivity.
Defined.

(** X6: when storage cannot be written, toggling still flips the sidebar
    but stores nothing, so the choice is lost on the next mount; and when
    storage cannot be read, the sidebar starts expanded whatever was stored. *)
Theorem sidebar_storage_unavailable (isCollapsed : bool) (ls : Storage.LocalStorage) :
  (Storage.writable ls = false →
   (Sidebar.toggleCollapsed isCollapsed ls).1 = negb isCollapsed
   ∧ (Sidebar.toggleCollapsed isCollapsed ls).2 = ls
   ∧ Sidebar.initialCollapsed (Sidebar.toggleCollapsed isCollapsed ls).2
     = Sidebar.initialCollapsed ls)
  ∧ (Storage.readable ls = false → Sidebar.initialCollapsed ls = false).
Proof.
  split.
  - intros Hw. unfold Sidebar.toggleCollapsed, Storage.setItem. by rewrite Hw.
  - intros Hr. unfold Sidebar.initialCollapsed, Storage.getItem. by rewrite Hr.
Qed.

Lemma sidebar_storage_unavailable_witness :
  Storage.writable (Storage.mkStorage ∅ true false) = false
  ∧ (Sidebar.toggleCollapsed false (Storage.mkStorage ∅ true false)).1 = true
  ∧ Sidebar.initialCollapsed
      (Sidebar.toggleCollapsed false (Storage.mkStorage ∅ true false)).2 = false.
Proof.
  split; [reflexivity|].
  destruct (proj1 (sidebar_storage_unavailable false
                     (Storage.mkStorage ∅ true false)) eq_refl)
    as (Hflip & _ & Hinit).
  split; [exact Hflip|]. rewrite Hinit. reflexivity.
Defined.

(** X7: choosing a Kanban column count always changes the component's own
    state.  If the write to storage succeeds, the board is notified with one
    storage event carrying the new count, and a modal mounted afterwards
    (storage readable) starts with that count; if the write throws, nothing
    is stored and no event is dispatched. *)
Theorem kanban_change_persisted (cols : Kanban.Columns) (env : Kanban.Env) :
  let env' := Kanban.handleKanbanColumnsChange cols env in
  Kanban.kanbanColumns env' = cols
  ∧ (Storage.writable (Kanban.storage env) = true →
     Kanban.dispatched env'
       = (Kanban.dispatched env
          ++ [Kanban.mkStorageEvent Kanban.KANBAN_COLUMNS_KEY
                (Kanban.String_of_columns cols)])%list
     ∧ (Storage.readable (Kanban.storage env) = true →
        Kanban.initialColumns (Kanban.storage env') = cols))
  ∧ (Storage.writable (Kanban.storage env) = false →
     Kanban.storage env' = Kanban.storage env
     ∧ Kanban.dispatched env' = Kanban.dispatched env).
Proof.
  unfold Kanban.handleKanbanColumnsChange, Kanban.initialColumns,
    Storage.setItem, Storage.getItem.
  destruct (Storage.writable (Kanban.storage env)); simpl.
  - split; [done|]. split; [|done]. intros _. split; [done|].
    intros ->. rewrite lookup_insert_eq. by destruct cols.
  - by repeat split.
Qed.

Lemma kanban_change_persisted_witness :
  Storage.writable (Storage.mkStorage ∅ true true) = true
  ∧ Storage.readable (Storage.mkStorage ∅ true true) = true
  ∧ Kanban.initialColumns
      (Kanban.storage
         (Kanban.handleKanbanColumnsChange Kanban.Four
            (Kanban.mkEnv Kanban.Three (Storage.mkStorage ∅ true true) [])))
    = Kanban.Four.
Proof.
  split; [reflexivity|]. split; [reflexivity|].
  apply (kanban_change_persisted Kanban.Four
           (Kanban.mkEnv Kanban.Three (Storage.mkStorage ∅ true true) []));
    reflexivity.
Defined.

(** X8: a stored column count other than the exact string ['4'], a missing
    item, or unreadable storage all start the modal with three columns;
    only a readable ['4'] gives four. *)
Theorem kanban_initial_columns (ls : Storage.LocalStorage) :
  Kanban.initialColumns ls = Kanban.Four
  ↔ Storage.readable ls = true
    ∧ Storage.items ls !! Kanban.KANBAN_COLUMNS_KEY = Some "4".
Proof.
  unfold Kanban.initialColumns, Storage.getItem.
  destruct (Storage.readable ls); simpl.
  - case_bool_decide as Hv; split; try done.
    + by intros [_ ?].
  - split; [done | by intros [? _]].
Qed.

(** * The progress dashboard header *)

Ltac badge_cases :=
  repeat match goal with
  | H : _ ∧ _ |- _ => destruct H
  | H : _ ∈ [] |- _ => by apply elem_of_nil in H
  | H : _ ∈ _ :: _ |- _ => apply elem_of_cons in H as [H|H]; [try discriminate|]
  | H : ?x = ?x → False |- _ => by destruct H
  end.

(** X9: the header never shows [Paused] and [Stopping] together, a graceful
    shutdown taking precedence; it always ends with exactly one connection
    badge; and with the optional props omitted that badge is the only one. *)
Theorem dashboard_header_badges (isConnected : bool)
    (yoloMode pickupPaused gracefulShutdown : option bool) :
  let badges :=
    Dashboard.headerBadges isConnected yoloMode pickupPaused gracefulShutdown in
  ¬ (Dashboard.Paused ∈ badges ∧ Dashboard.Stopping ∈ badges)
  ∧ (Dashboard.Stopping ∈ badges ↔ gracefulShutdown = Some true)
  ∧ (Dashboard.Paused ∈ badges
     ↔ pickupPaused = Some true ∧ gracefulShutdown ≠ Some true)
  ∧ last badges
    = Some (if isConnected then Dashboard.Live else Dashboard.Offline)
  ∧ length (filter (fun b => b = Dashboard.Live ∨ b = Dashboard.Offline) badges)
    = 1%nat
  ∧ Dashboard.headerBadges isConnected None None None
    = [if isConnected then Dashboard.Live else Dashboard.Offline].
Proof.
  intros badges. subst badges. unfold Dashboard.headerBadges.
  destruct isConnected, yoloMode as [[]|], pickupPaused as [[]|],
    gracefulShutdown as [[]|]; simpl;
    repeat split; try done; unfold not; intros; badge_cases;
    try done; try discriminate; try (by repeat constructor).
Qed.

(** * Themes *)

Lemma themes_registered (themeId : string) (theme : Themes.Theme) :
  Themes.themes !! themeId = Some theme →
  (themeId = "default" ∧ theme = Themes.defaultTheme)
  ∨ (themeId = "starfleet_tos" ∧ theme = Themes.starfleetTOSTheme).
Proof.
  unfold Themes.themes. intros Hk.
  apply elem_of_list_to_map_2 in Hk.
  apply elem_of_cons in Hk as [Hk|Hk]; [left; by inversion Hk|].
  apply elem_of_cons in Hk as [Hk|Hk]; [right; by inversion Hk|].
  by apply elem_of_nil in Hk.
Qed.

Lemma themes_not_inherited (themeId : string) :
  themeId ∈ Themes.OBJECT_PROTOTYPE_NAMES → Themes.themes !! themeId = None.
Proof.
  unfold Themes.OBJECT_PROTOTYPE_NAMES. intros Hin.
  repeat (apply elem_of_cons in Hin as [->|Hin]; [reflexivity|]).
  by apply elem_of_nil in Hin.
Qed.

(** X10: [getTheme] returns the theme registered under the id, whose own
    [id] field is that id, and falls back to the default theme for any other
    id, except that an id naming an inherited object property
    (['constructor'], ['toString'], ...) gets that inherited member back
    instead of a theme. *)
Theorem getTheme_registered_or_default (themeId : string) :
  (themeId ∉ Themes.OBJECT_PROTOTYPE_NAMES →
   ∃ theme,
     Themes.getTheme themeId = Themes.FoundTheme theme
     ∧ ((Themes.themes !! themeId = Some theme ∧ Themes.id theme = themeId)
        ∨ (Themes.themes !! themeId = None ∧ theme = Themes.defaultTheme)))
  ∧ (themeId ∈ Themes.OBJECT_PROTOTYPE_NAMES →
     Themes.getTheme themeId = Themes.Inherited themeId).
Proof.
  unfold Themes.getTheme. split.
  - intros Hown. destruct (Themes.themes !! themeId) as [theme|] eqn:Hk.
    + exists theme. split; [done|]. left. split; [done|].
      by destruct (themes_registered themeId theme Hk) as [[-> ->]|[-> ->]].
    + exists Themes.defaultTheme. rewrite bool_decide_eq_false_2 by done.
      split; [done|]. by right.
  - intros Hin. rewrite (themes_not_inherited themeId Hin).
    by rewrite bool_decide_eq_true_2.
Qed.

Lemma getTheme_registered_or_default_witness :
  Themes.getTheme "lcars" = Themes.FoundTheme Themes.defaultTheme
  ∧ Themes.getTheme "toString" = Themes.Inherited "toString".
Proof.
  split.
  - destruct (proj1 (getTheme_registered_or_default "lcars"))
      as (theme & Hget & [[Hk _]|[_ ->]]).
    + apply (bool_decide_unpack _). vm_compute. exact I.
    + discriminate Hk.
    + exact Hget.
  - apply (proj2 (getTheme_registered_or_default "toString")).
    apply (bool_decide_unpack _). vm_compute. exact I.
Defined.

Lemma getAgentName_nonneg (theme : Themes.Theme) (index : Z) :
  Themes.agentNames theme ≠ [] →
  (0 ≤ index)%Z →
  let len := Z.of_nat (length (Themes.agentNames theme)) in
  ∃ name,
    Themes.agentNames theme !! Z.to_nat (index `mod` len) = Some name
    ∧ ∀ i, (0 ≤ i)%Z → (i `mod` len = index `mod` len)%Z →
           Themes.getAgentName theme i = Some name.
Proof.
  intros Hne Hidx len.
  assert (0 < len)%Z as Hlen.
  { subst len. destruct (Themes.agentNames theme); [done | simpl; lia]. }
  pose proof (Z.mod_pos_bound index len Hlen) as Hmod.
  destruct (lookup_lt_is_Some_2 (Themes.agentNames theme)
              (Z.to_nat (index `mod` len))) as [name Hname]; [lia|].
  exists name. split; [done|].
  intros i Hi Hsame. unfold Themes.getAgentName. fold len.
  rewrite (proj2 (Z.eqb_neq len 0)) by lia.
  rewrite Z.rem_mod_nonneg by lia.
  rewrite (proj2 (Z.ltb_ge (i `mod` len) 0)) by lia.
  by rewrite Hsame.
Qed.

(** X11: for a theme with at least one agent name and a non-negative index,
    [getAgentName] always finds a name of the theme, the one at position
    [index mod length]; every non-negative index with the same remainder
    names the same agent, and so does [index + length] as long as that sum
    stays within 2^53, where JavaScript still adds exactly. *)
Theorem getAgentName_wraps (theme : Themes.Theme) (index : Z) :
  Themes.agentNames theme ≠ [] →
  (0 ≤ index)%Z →
  let len := Z.of_nat (length (Themes.agentNames theme)) in
  ∃ name,
    Themes.getAgentName theme index = Some name
    ∧ name ∈ Themes.agentNames theme
    ∧ Themes.agentNames theme !! Z.to_nat (index `mod` len) = Some name
    ∧ (∀ other, (0 ≤ other)%Z → (other `mod` len = index `mod` len)%Z →
         Themes.getAgentName theme other = Some name)
    ∧ ((index + len ≤ 2 ^ 53)%Z →
       Themes.getAgentName theme (index + len) = Some name).
Proof.
  intros Hne Hidx len.
  destruct (getAgentName_nonneg theme index Hne Hidx) as (name & Hname & Hget).
  fold len in Hname, Hget.
  assert (0 < len)%Z as Hlen.
  { subst len. destruct (Themes.agentNames theme); [done | simpl; lia]. }
  exists name.
  split; [by apply Hget|].
  split; [by eapply list_elem_of_lookup_2|].
  split; [done|]. split; [done|].
  intros _. apply Hget; [lia|].
  rewrite <- (Z.mul_1_l len) at 1. by rewrite Z.mod_add by lia.
Qed.

Lemma getAgentName_wraps_witness :
  Themes.agentNames Themes.starfleetTOSTheme ≠ []
  ∧ (0 ≤ 14)%Z
  ∧ Themes.getAgentName Themes.starfleetTOSTheme 14 = Some "Scotty".
Proof.
  assert (Themes.agentNames Themes.starfleetTOSTheme ≠ []) as Hne by done.
  assert (0 ≤ 14)%Z as Hidx by lia.
  split; [exact Hne|]. split; [exact Hidx|].
  destruct (getAgentName_wraps Themes.starfleetTOSTheme 14 Hne Hidx)
    as (name & Hget & _ & Hat & _).
  rewrite Hget. rewrite <- Hat. reflexivity.
Defined.

(** X12: [getAgentName] finds nothing for a theme without agent names,
    whatever the index, nor for a negative index that is not a multiple of
    the number of names; a negative multiple finds the first name. *)
Theorem getAgentName_undefined (theme : Themes.Theme) (index : Z) :
  let len := Z.of_nat (length (Themes.agentNames theme)) in
  (Themes.agentNames theme = [] → Themes.getAgentName theme index = None)
  ∧ ((index < 0)%Z → Z.rem index len ≠ 0%Z →
     Themes.getAgentName theme index = None)
  ∧ ((index < 0)%Z → Z.rem index len = 0%Z →
     Themes.getAgentName theme index = head (Themes.agentNames theme)).
Proof.
  intros len. unfold Themes.getAgentName. fold len. split; [|split].
  - intros Hnil. subst len. by rewrite Hnil.
  - intros Hneg Hrem. destruct (Z.eqb_spec len 0); [done|].
    pose proof (Z.rem_nonpos index len ltac:(lia) ltac:(lia)).
    by rewrite (proj2 (Z.ltb_lt (Z.rem index len) 0)) by lia.
  - intros Hneg Hrem. rewrite Hrem. simpl.
    destruct (Z.eqb_spec len 0) as [Hz|Hnz].
    + subst len. by destruct (Themes.agentNames theme).
    + by destruct (Themes.agentNames theme).
Qed.

Lemma getAgentName_undefined_witness :
  (-1 < 0)%Z
  ∧ Z.rem (-1) (Z.of_nat (length (Themes.agentNames Themes.defaultTheme))) ≠ 0%Z
  ∧ Themes.getAgentName Themes.defaultTheme (-1) = None.
Proof.
  assert (-1 < 0)%Z as Hneg by lia.
  assert (Z.rem (-1) (Z.of_nat (length (Themes.agentNames Themes.defaultTheme)))
          ≠ 0%Z) as Hrem by (vm_compute; discriminate).
  split; [exact Hneg|]. split; [exact Hrem|].
  exact (proj1 (proj2 (getAgentName_undefined Themes.defaultTheme (-1)))
           Hneg Hrem).
Defined.

(** X13: every theme [getTheme] can return names an agent for every
    non-negative index: the registered themes all have agent names, and an
    unknown id falls back to the default theme. *)
Theorem getTheme_names_every_agent (themeId : string) (index : Z) :
  themeId ∉ Themes.OBJECT_PROTOTYPE_NAMES →
  (0 ≤ index)%Z →
  ∃ theme name,
    Themes.getTheme themeId = Themes.FoundTheme theme
    ∧ Themes.getAgentName theme index = Some name
    ∧ name ∈ Themes.agentNames theme.
Proof.
  intros Hown Hidx.
  assert (∀ theme, theme = Themes.defaultTheme ∨ theme = Themes.starfleetTOSTheme →
                   Themes.agentNames theme ≠ []) as Hnames
    by (by intros theme [-> | ->]).
  assert (∃ theme, Themes.getTheme themeId = Themes.FoundTheme theme
                   ∧ Themes.agentNames theme ≠ []) as (theme & Hget & Hne).
  { unfold Themes.getTheme.
    destruct (Themes.themes !! themeId) as [theme|] eqn:Hk.
    - exists theme. split; [done|]. apply Hnames.
      destruct (themes_registered themeId theme Hk) as [[_ ->]|[_ ->]]; auto.
    - exists Themes.defaultTheme. rewrite bool_decide_eq_false_2 by done.
      split; [done|]. apply Hnames. by left. }
  destruct (getAgentName_nonneg theme index Hne Hidx) as (name & Hat & Hname).
  exists theme, name. split; [done|].
  split; [by apply Hname | by eapply list_elem_of_lookup_2].
Qed.

Lemma getTheme_names_every_agent_witness :
  ∃ theme name,
    Themes.getTheme "starfleet_tos" = Themes.FoundTheme theme
    ∧ Themes.getAgentName theme 25 = Some name
    ∧ name ∈ Themes.agentNames theme.
Proof.
  apply (getTheme_names_every_agent "starfleet_tos" 25); [|lia].
  apply (bool_decide_unpack _). vm_compute. exact I.
Defined.

(** X14: in every registered theme the optional texts are all-or-nothing:
    an agent name has a catchphrase for each of the seven states or for
    none, and the orchestrator has a message for each of its six states or
    for none. *)
Theorem theme_texts_complete (themeId : string) (theme : Themes.Theme)
    (agentName : string) :
  Themes.themes !! themeId = Some theme →
  ((∀ state, is_Some (Themes.getAgentCatchphrase theme agentName state))
   ∨ (∀ state, Themes.getAgentCatchphrase theme agentName state = None))
  ∧ ((∀ state, is_Some (Themes.getOrchestratorMessage theme state))
     ∨ (∀ state, Themes.getOrchestratorMessage theme state = None)).
Proof.
  intros Hk.
  destruct (themes_registered themeId theme Hk) as [[_ ->]|[_ ->]].
  - split; by right.
  - split.
    + unfold Themes.getAgentCatchphrase, Themes.starfleetTOSTheme.
      cbn [Themes.agentCatchphrases mbind option_bind].
      match goal with |- context [list_to_map ?l !! agentName] =>
        destruct (list_to_map (M := gmap string (gmap string string)) l
                    !! agentName) as [entry|] eqn:He end; [|by right].
      left. apply elem_of_list_to_map_2 in He.
      repeat (apply elem_of_cons in He as [He|He];
              [inversion He; subst; intros []; by eexists|]).
      by apply elem_of_nil in He.
    + left. intros []; by eexists.
Qed.

Lemma theme_texts_complete_witness :
  Themes.themes !! "starfleet_tos" = Some Themes.starfleetTOSTheme
  ∧ Themes.getAgentCatchphrase Themes.starfleetTOSTheme "Rand" Themes.AgentIdle
    = None.
Proof.
  assert (Themes.themes !! "starfleet_tos" = Some Themes.starfleetTOSTheme)
    as Hk by reflexivity.
  split; [exact Hk|].
  destruct (proj1 (theme_texts_complete "starfleet_tos"
                     Themes.starfleetTOSTheme "Rand" Hk)) as [Hall|Hnone].
  - destruct (Hall Themes.AgentIdle) as [phrase Hp]. discriminate Hp.
  - apply Hnone.
Defined.

(** * More on the settings modal *)

(** X15: resetting a project setting, with a project selected, drops the key
    from the project-scope buffer, keeps every other pending entry of both
    scopes, and sends one clear request for that key of that project; it
    does so even while a save is in flight.  Without a project it does
    nothing. *)
Theorem reset_project_setting (s : Modal) (key : string) :
  (∀ name, projectName s = Some name → hasProject s = true →
     let s' := handleResetProjectSetting key s in
     pendingProjectChanges s' !! key = None
     ∧ (∀ k, k ≠ key →
          pendingProjectChanges s' !! k = pendingProjectChanges s !! k)
     ∧ pendingAppChanges s' = pendingAppChanges s
     ∧ requests s' = (requests s ++ [ClearProjectSettingV2 name key])%list)
  ∧ (hasProject s = false → handleResetProjectSetting key s = s).
Proof.
  split.
  - intros name Hname Hproj. unfold_handlers. rewrite Hname, Hproj. simpl.
    split; [apply lookup_delete_eq|]. split; [|done].
    intros k Hk. by apply lookup_delete_ne.
  - intros Hproj. unfold_handlers. rewrite Hproj. by destruct (projectName s).
Qed.

Lemma reset_project_setting_witness :
  projectName demo_saving = Some "demo"
  ∧ hasProject demo_saving = true
  ∧ isSaving demo_saving = true
  ∧ requests (handleResetProjectSetting "yoloMode" demo_saving)
    = (requests demo_saving ++ [ClearProjectSettingV2 "demo" "yoloMode"])%list.
Proof.
  split; [reflexivity|]. split; [reflexivity|]. split; [reflexivity|].
  apply (proj1 (reset_project_setting demo_saving "yoloMode") "demo");
    reflexivity.
Defined.



(** X17: agent settings are never applied at once.  An app-scope edit sends
    at most one request, an app update made of exactly the UI-only entries
    of the edit; entries with other keys are not in it. *)
Theorem app_edit_sends_ui_only (s : Modal) (update : Settings) :
  requests (handleAppChange update s) = requests s
  ∨ ∃ uiChanges,
      requests (handleAppChange update s)
        = (requests s ++ [UpdateAppSettingsV2 uiChanges])%list
      ∧ ∀ key,
          uiChanges !! key
            = (if decide (key ∈ UI_ONLY_SETTINGS) then update !! key else None).
Proof.
  unfold_handlers. destruct (isSaving s); [by left|].
  destruct (0 <? keys_length (classify update).1)%nat;
    destruct (0 <? keys_length (classify update).2)%nat; simpl;
    try (by left); right; exists (classify update).1;
    (split; [done | intros key; apply classify_lookup]).
Qed.

(** X18: a project-scope edit that is accepted (a project selected, no save
    in flight) merges into the project buffer: the edited keys take their
    new values, overwriting earlier pending ones, all other pending keys and
    the app buffer are kept, and nothing is sent.  With no project selected
    ([null] or the empty name) the edit is ignored. *)
Theorem project_edit_merged (s : Modal) (update : Settings) :
  (isSaving s = false → hasProject s = true →
   let s' := handleProjectChange update s in
   (∀ k v, update !! k = Some v → pendingProjectChanges s' !! k = Some v)
   ∧ (∀ k, update !! k = None →
        pendingProjectChanges s' !! k = pendingProjectChanges s !! k)
   ∧ pendingAppChanges s' = pendingAppChanges s
   ∧ requests s' = requests s)
  ∧ (hasProject s = false → handleProjectChange update s = s).
Proof.
  split.
  - intros Hidle Hproj s'.
    destruct (handleProjectChange_accepted s update Hidle Hproj) as [Hnew Happ].
    fold s' in Hnew, Happ. rewrite Hnew.
    split; [intros k v; apply spread_lookup_new|].
    split; [intros k; apply spread_lookup_old|]. split; [done|].
    by destruct (handleProjectChange_same_outside s update)
      as (_&_&_&_&_&_&_&?).
  - intros Hproj. unfold handleProjectChange. rewrite Hproj.
    by rewrite orb_true_r.
Qed.

Lemma project_edit_merged_witness :
  isSaving demo_project_edit = false
  ∧ hasProject demo_project_edit = true
  ∧ pendingProjectChanges
      (handleProjectChange {[ "yoloMode" := VBool false ]} demo_project_edit)
      !! "yoloMode" = Some (VBool false).
Proof.
  split; [reflexivity|]. split; [reflexivity|].
  apply (proj1 (project_edit_merged demo_project_edit
                  {[ "yoloMode" := VBool false ]}) eq_refl eq_refl).
  reflexivity.
Defined.

Lemma handleSave_all_ok_state (s : Modal) :
  hasProject s = true →
  let saved := (handleSave true true s).1 in
  pendingAppChanges saved = ∅
  ∧ pendingProjectChanges saved = ∅
  ∧ effectiveSettings saved = effectiveSettings s.
Proof.
  intros Hproj.
  assert (∀ m : Settings, (0 <? keys_length m)%nat = false → m = ∅) as Hempty
    by (intros m; apply no_keys_empty).
  unfold_save. rewrite Hproj.
  unfold hasUnsavedAppChanges, hasUnsavedProjectChanges, hasProject in *.
  destruct (0 <? keys_length (pendingAppChanges s))%nat eqn:Ha;
    destruct (projectName s) as [name|] eqn:Hn; try done;
    destruct (0 <? keys_length (pendingProjectChanges s))%nat eqn:Hp;
    simpl; repeat split; auto.
Qed.

(** X19: when every write succeeds, save is fulfilled and leaves the
    app-scope buffer empty; with a project selected the project-scope buffer
    is empty too and no unsaved change remains.  The app write, if any, is
    sent before the project write, if any, and each carries its whole
    buffer. *)
Theorem save_all_succeed (s : Modal) :
  let r := handleSave true true s in
  r.2 = Fulfilled tt
  ∧ pendingAppChanges r.1 = ∅
  ∧ (hasProject s = true →
     pendingProjectChanges r.1 = ∅ ∧ hasUnsavedChanges r.1 = false)
  ∧ (hasProject s = false →
     pendingProjectChanges r.1 = pendingProjectChanges s)
  ∧ requests r.1
    = (requests s
       ++ (if hasUnsavedAppChanges s
           then [UpdateAppSettingsV2 (pendingAppChanges s)] else [])
       ++ (match projectName s with
           | Some name =>
               if hasUnsavedProjectChanges s && hasProject s
               then [UpdateProjectSettingsV2 name (pendingProjectChanges s)]
               else []
           | None => []
           end))%list.
Proof.
  assert (∀ m : Settings, (0 <? keys_length m)%nat = false → m = ∅) as Hempty
    by (intros m; apply no_keys_empty).
  assert ((0 <? keys_length (∅ : Settings))%nat = false) as Hzero
    by (by apply no_keys_empty).
  unfold hasUnsavedChanges, hasUnsavedAppChanges, hasUnsavedProjectChanges,
    hasProject.
  unfold_save.
  unfold hasUnsavedAppChanges, hasUnsavedProjectChanges, hasProject.
  destruct (0 <? keys_length (pendingAppChanges s))%nat eqn:Ha;
    destruct (projectName s) as [name|] eqn:Hn;
    destruct (0 <? keys_length (pendingProjectChanges s))%nat eqn:Hp;
    try destruct (negb (String.eqb name "")) eqn:Hname;
    simpl; rewrite ?Hn, ?app_nil_r, <- ?app_assoc; simpl;
    rewrite ?Hzero, ?Ha, ?Hp;
    repeat split; try done; auto.
Qed.

(** X20: when the app write fails, save is rejected at once: both buffers
    keep their entries, unsaved changes stay flagged, and the project write
    is not attempted, the failed app write being the only request sent. *)
Theorem save_app_write_rejected (s : Modal) (project_ok : bool) :
  hasUnsavedAppChanges s = true →
  let r := handleSave false project_ok s in
  r.2 = Rejected
  ∧ pendingAppChanges r.1 = pendingAppChanges s
  ∧ pendingProjectChanges r.1 = pendingProjectChanges s
  ∧ hasUnsavedChanges r.1 = true
  ∧ requests r.1
    = (requests s ++ [UpdateAppSettingsV2 (pendingAppChanges s)])%list.
Proof.
  intros Hdirty r.
  destruct (handleSave_app_write_fails s project_ok Hdirty)
    as (Hout & Happ & Hproj & Hreq).
  fold r in Hout, Happ, Hproj, Hreq.
  split; [done|]. split; [done|]. split; [done|]. split; [|done].
  unfold hasUnsavedChanges, hasUnsavedAppChanges in *. by rewrite Happ, Hdirty.
Qed.

Lemma save_app_write_rejected_witness :
  hasUnsavedAppChanges demo_both_edits = true
  ∧ (handleSave false true demo_both_edits).2 = Rejected
  ∧ requests (handleSave false true demo_both_edits).1
    = [UpdateAppSettingsV2 {[ "yoloMode" := VBool false ]}].
Proof.
  split; [reflexivity|].
  destruct (save_app_write_rejected demo_both_edits true eq_refl)
    as (Hout & _ & _ & _ & Hreq).
  split; [exact Hout|]. rewrite Hreq. reflexivity.
Defined.

(** X21: retrying after a partial failure.  Once the app write has
    succeeded and the project write failed, a second save sends the project
    write alone, with the same entries, and on success ends fulfilled with
    both buffers empty; the app write is not repeated. *)
Theorem save_retry_after_partial_failure (s : Modal) (name : string)
    (app_ok : bool) :
  projectName s = Some name →
  hasProject s = true →
  hasUnsavedProjectChanges s = true →
  let first := handleSave true false s in
  let second := handleSave app_ok true first.1 in
  second.2 = Fulfilled tt
  ∧ pendingAppChanges second.1 = ∅
  ∧ pendingProjectChanges second.1 = ∅
  ∧ requests second.1
    = (requests first.1
       ++ [UpdateProjectSettingsV2 name (pendingProjectChanges s)])%list.
Proof.
  intros Hname Hproj Hdirty.
  assert ((0 <? keys_length (∅ : Settings))%nat = false) as Hzero
    by (by apply no_keys_empty).
  unfold hasProject, hasUnsavedProjectChanges in *. unfold_save.
  unfold hasProject, hasUnsavedAppChanges, hasUnsavedProjectChanges.
  rewrite Hname in *. rewrite Hdirty, Hproj.
  destruct (0 <? keys_length (pendingAppChanges s))%nat eqn:Ha; simpl;
    rewrite ?Hzero, ?Ha, ?Hname, ?Hdirty, ?Hproj; simpl;
    repeat split; try done.
  by apply no_keys_empty.
Qed.

Lemma save_retry_after_partial_failure_witness :
  projectName demo_both_edits = Some "demo"
  ∧ hasProject demo_both_edits = true
  ∧ hasUnsavedProjectChanges demo_both_edits = true
  ∧ requests (handleSave true true (handleSave true false demo_both_edits).1).1
    = [UpdateAppSettingsV2 {[ "yoloMode" := VBool false ]};
       UpdateProjectSettingsV2 "demo" {[ "yoloMode" := VBool true ]};
       UpdateProjectSettingsV2 "demo" {[ "yoloMode" := VBool true ]}].
Proof.
  split; [reflexivity|]. split; [reflexivity|]. split; [reflexivity|].
  destruct (save_retry_after_partial_failure demo_both_edits "demo" true
              eq_refl eq_refl eq_refl) as (_ & _ & _ & Hreq).
  rewrite Hreq. reflexivity.
Defined.

(** X22: sending a UI-only edit puts the modal in the saving state, so any
    further edit of either scope is ignored until that write settles; once
    it has settled, edits are accepted again. *)
Theorem ui_edit_blocks_until_settled (s : Modal) (update : Settings)
    (key : string) (v : value) :
  isSaving s = false →
  update !! key = Some v →
  key ∈ UI_ONLY_SETTINGS →
  let s' := handleAppChange update s in
  isSaving s' = true
  ∧ (∀ next, handleAppChange next s' = s' ∧ handleProjectChange next s' = s')
  ∧ isSaving (step s' UpdateAppSettled) = false.
Proof.
  intros Hidle Hk Hui s'.
  pose proof (classify_ui_lookup update key v Hk Hui) as Hsent.
  assert ((0 <? keys_length (classify update).1)%nat = true) as Hsome.
  { apply some_keys_nonempty. intros He. by rewrite He, lookup_empty in Hsent. }
  assert (updateApp_isPending s' = true
          ∧ updateProject_isPending s' = updateProject_isPending s)
    as [Hpending Hother].
  { subst s'. unfold_handlers. rewrite Hidle, Hsome.
    by destruct (0 <? keys_length (classify update).2)%nat. }
  assert (isSaving s' = true) as Hsaving
    by (unfold isSaving; by rewrite Hpending).
  split; [done|]. split.
  - intros next. unfold handleAppChange, handleProjectChange.
    by rewrite Hsaving.
  - unfold isSaving in *. simpl. rewrite Hother.
    by apply orb_false_iff in Hidle as [_ ->].
Qed.

Lemma ui_edit_blocks_until_settled_witness :
  isSaving demo_loaded = false
  ∧ ({[ "showDebugPanel" := VBool true ]} : Settings) !! "showDebugPanel"
    = Some (VBool true)
  ∧ ("showDebugPanel" ∈ UI_ONLY_SETTINGS)
  ∧ isSaving demo_saving = true.
Proof.
  assert (isSaving demo_loaded = false) as Hidle by reflexivity.
  assert (({[ "showDebugPanel" := VBool true ]} : Settings) !! "showDebugPanel"
          = Some (VBool true)) as Hk by reflexivity.
  assert ("showDebugPanel" ∈ UI_ONLY_SETTINGS) as Hui
    by (vm_compute; reflexivity).
  split; [exact Hidle|]. split; [exact Hk|]. split; [exact Hui|].
  apply (ui_edit_blocks_until_settled demo_loaded
           {[ "showDebugPanel" := VBool true ]} "showDebugPanel" (VBool true)
           Hidle Hk Hui).
Defined.

(** X23: save does not touch the fetched snapshot.  Right after a fully
    successful save of a project-scope edit (of a key that [in] does not
    find in the app buffer), the key is shown again as the
    snapshot has it (its value from before the edit, or the fallback, under
    the old source) and stays so until refetched effective settings arrive,
    which are then what is shown. *)
Theorem view_after_save_until_refetch (s : Modal) (key : string)
    (v fallback : value) (e : option EffectiveSettings) :
  hasProject s = true →
  pendingProjectChanges s !! key = Some v →
  has (pendingAppChanges s) key = false →
  let saved := (handleSave true true s).1 in
  getEffective s key fallback = v
  ∧ effectiveView saved key fallback = effectiveView (handleCancel s) key fallback
  ∧ effectiveView (step saved (Refetched e)) key fallback
    = effectiveView (set_effectiveSettings e (handleCancel s)) key fallback.
Proof.
  intros Hproj Hp Ha saved.
  destruct (handleSave_all_ok_state s Hproj) as (Happ & Hpe & Hsnap).
  fold saved in Happ, Hpe, Hsnap.
  split; [by apply getEffective_project_pending|].
  assert (∀ s1 s2, pendingAppChanges s1 = pendingAppChanges s2 →
                   pendingProjectChanges s1 = pendingProjectChanges s2 →
                   effectiveSettings s1 = effectiveSettings s2 →
                   effectiveView s1 key fallback = effectiveView s2 key fallback)
    as Hview.
  { intros s1 s2 H1 H2 H3.
    unfold effectiveView, getEffective, getSource, effective_settings,
      effective_sources. by rewrite H1, H2, H3. }
  split; apply Hview; simpl; by rewrite ?Happ, ?Hpe, ?Hsnap.
Qed.

Lemma view_after_save_until_refetch_witness :
  hasProject demo_project_edit = true
  ∧ pendingProjectChanges demo_project_edit !! "yoloMode" = Some (VBool true)
  ∧ has (pendingAppChanges demo_project_edit) "yoloMode" = false
  ∧ effectiveView demo_project_edit "yoloMode" (VBool false)
    = Resolved (VBool true) (VStr "app")
  ∧ effectiveView (handleSave true true demo_project_edit).1 "yoloMode"
      (VBool false)
    = Resolved (VBool false) (VStr "app").
Proof.
  split; [reflexivity|]. split; [reflexivity|]. split; [reflexivity|].
  split; [reflexivity|].
  destruct (view_after_save_until_refetch demo_project_edit "yoloMode"
              (VBool true) (VBool false) None eq_refl eq_refl eq_refl)
    as (_ & Hsaved & _).
  rewrite Hsaved. reflexivity.
Defined.
